(** * haks-shop: the Flask backend of [app.py], embedded and verified

    The handlers of [app.py] are translated one by one into a small
    state-and-exception monad.  The state (the [World]) holds what the
    handlers can observe or change: the committed tables of the PostgreSQL
    store, the working copy of the connection that is open (if any), the
    sequences behind the generated ids, the process's standard output and
    environment, and a schedule of failures the store may raise.

    Conventions of the embedding:
    - a JSON field or query parameter read with [.get] is an [option]:
      [None] is Python's [None] (the key is absent, or its value is null);
    - NUMERIC and INTEGER columns are exact integers ([Z]); Python's
      [float()] on a NUMERIC is not modelled (no rounding); a NUMERIC
      handed to [jsonify] as it is, without [float()], is a
      [decimal.Decimal], which is written as the string of its digits;
    - an exception that leaves a handler is the [Raise] outcome: Flask, not
      [app.py], turns it into a response. *)

From Stdlib Require Import ZArith List String Ascii Bool Lia DecimalString.
From Stdlib Require Import Sorting.Sorted Sorting.Permutation.
Import ListNotations.

Local Open Scope string_scope.
Local Open Scope Z_scope.

(** ** Rows and tables *)

Record User := mkUser {
  u_id : Z;
  u_name : string;
  u_email : string;
  u_password : string;
  u_is_admin : bool
}.

Record Product := mkProduct {
  p_id : Z;
  p_name : string;
  p_category : string;
  p_price : Z;
  p_image_url : string
}.

Record CartItem := mkCartItem {
  c_id : Z;
  c_user_id : Z;
  c_product_id : Z;
  c_quantity : Z
}.

Record Order := mkOrder {
  o_id : Z;
  o_user_id : Z;
  o_total_amount : Z;
  o_status : string;
  o_created_at : Z
}.

Record Tables := mkTables {
  users : list User;
  products : list Product;
  cart : list CartItem;
  orders : list Order
}.

(** The sequences behind the [id] columns that [app.py] inserts into.
    A sequence is not transactional: a value drawn is never given back. *)
Record Seqs := mkSeqs {
  users_id_seq : Z;
  products_id_seq : Z;
  cart_id_seq : Z
}.

(** ** Exceptions, outcomes and responses *)

(** [psycopg2.errors.UniqueViolation] is the one class [app.py] catches by
    name; every other exception is caught, if at all, as [Exception]. *)
Inductive exn :=
| UniqueViolation (msg : string)
| PyException (msg : string).

(** [str(e)] *)
Definition str (e : exn) : string :=
  match e with
  | UniqueViolation msg => msg
  | PyException msg => msg
  end.

Inductive result (A : Type) :=
| Ok (a : A)
| Raise (e : exn).
Arguments Ok {A} a.
Arguments Raise {A} e.

#[warnings="-register-all"]
Inductive json :=
| JNull
| JBool (b : bool)
| JNum (z : Z)
| JStr (s : string)
| JList (l : list json)
| JDict (kv : list (string * json)).

(** What a handler returns: [jsonify(body), status]. *)
Record Response := mkResponse {
  status : Z;
  body : json
}.

Definition jsonify (j : json) (code : Z) : Response := mkResponse code j.

(** [str(d)] for a [decimal.Decimal] *)
Definition str_decimal (d : Z) : string :=
  NilZero.string_of_int (Z.to_int d).

(** What [jsonify] writes for a [decimal.Decimal]: the string [str(d)],
    not a number. *)
Definition json_of_decimal (d : Z) : json := JStr (str_decimal d).

(** ** The world *)

Record World := mkWorld {
  tables : Tables;              (* committed rows *)
  session : option Tables;      (* rows as the open connection sees them *)
  seqs : Seqs;
  stdout : list string;         (* lines written by print *)
  database_url : option string; (* os.environ.get("DATABASE_URL") *)
  faults : list (option exn);   (* failures the store raises, one entry per round trip *)
  salts : list string           (* randomness drawn by generate_password_hash *)
}.

Definition set_tables (w : World) (t : Tables) : World :=
  mkWorld t (session w) (seqs w) (stdout w) (database_url w) (faults w) (salts w).
Definition set_session (w : World) (s : option Tables) : World :=
  mkWorld (tables w) s (seqs w) (stdout w) (database_url w) (faults w) (salts w).
Definition set_seqs (w : World) (q : Seqs) : World :=
  mkWorld (tables w) (session w) q (stdout w) (database_url w) (faults w) (salts w).
Definition set_stdout (w : World) (o : list string) : World :=
  mkWorld (tables w) (session w) (seqs w) o (database_url w) (faults w) (salts w).
Definition set_faults (w : World) (f : list (option exn)) : World :=
  mkWorld (tables w) (session w) (seqs w) (stdout w) (database_url w) f (salts w).
Definition set_salts (w : World) (s : list string) : World :=
  mkWorld (tables w) (session w) (seqs w) (stdout w) (database_url w) (faults w) s.

(** ** The monad of handlers *)

Definition M (A : Type) : Type := World -> World * result A.

Definition ret {A} (a : A) : M A := fun w => (w, Ok a).

Definition raise {A} (e : exn) : M A := fun w => (w, Raise e).

(** A call that returns or raises and leaves the world alone. *)
Definition lift {A} (r : result A) : M A := fun w => (w, r).

Definition bind {A B} (m : M A) (k : A -> M B) : M B :=
  fun w =>
    match m w with
    | (w1, Ok a) => k a w1
    | (w1, Raise e) => (w1, Raise e)
    end.

Declare Scope shop_scope.
Delimit Scope shop_scope with shop.
Notation "x <- m ;; k" := (bind m (fun x => k))
  (at level 61, m at next level, right associativity) : shop_scope.
Notation "m ;; k" := (bind m (fun _ => k))
  (at level 61, right associativity) : shop_scope.
Local Open Scope shop_scope.

(** [try: body  except ...: handler] *)
Definition try_except {A} (body : M A) (handler : exn -> M A) : M A :=
  fun w =>
    match body w with
    | (w1, Ok a) => (w1, Ok a)
    | (w1, Raise e) => handler e w1
    end.

(** [try: body  finally: fin].  The [finally] block runs on every outcome
    of [body], a [return] included; an exception of its own replaces the
    outcome of [body]. *)
Definition try_finally {A} (body : M A) (fin : M unit) : M A :=
  fun w =>
    match body w with
    | (w1, r) =>
        match fin w1 with
        | (w2, Ok _) => (w2, r)
        | (w2, Raise e) => (w2, Raise e)
        end
    end.

(** ** Python truthiness of the values read from a request *)

Definition truthy_str (o : option string) : bool :=
  match o with
  | Some s => negb (s =? "")%string
  | None => false
  end.

Definition truthy_int (o : option Z) : bool :=
  match o with
  | Some z => negb (z =? 0)
  | None => false
  end.

(** ** The store gateway: psycopg2 as [app.py] uses it *)

(** One round trip to the store: the next entry of the failure schedule
    decides whether it raises. *)
Definition round_trip : M unit :=
  fun w =>
    match faults w with
    | [] => (w, Ok tt)
    | None :: fs => (set_faults w fs, Ok tt)
    | Some e :: fs => (set_faults w fs, Raise e)
    end.

(** [get_db_connection()] *)
Definition get_db_connection : M unit :=
  fun w =>
    if truthy_str (database_url w) then
      (round_trip ;;
       fun w1 => (set_session w1 (Some (tables w1)), Ok tt)) w
    else
      (w, Raise (PyException "DATABASE_URL environment variable not set")).

(** [conn.cursor()] and [cur.close()] are local to the client. *)
Definition cursor : M unit := ret tt.
Definition cur_close : M unit := ret tt.

(** [conn.close()]: what was not committed is lost. *)
Definition conn_close : M unit :=
  fun w => (set_session w None, Ok tt).

(** A statement reads and changes the rows the connection sees and may
    draw from the sequences (also when it then fails). *)
Definition Stmt (A : Type) : Type := Seqs -> Tables -> Seqs * result (Tables * A).

(** [cur.execute(...)], with the rows it makes available to
    [fetchone]/[fetchall]. *)
Definition execute {A} (q : Stmt A) : M A :=
  round_trip ;;
  fun w =>
    match session w with
    | None => (w, Raise (PyException "connection already closed"))
    | Some t =>
        match q (seqs w) t with
        | (s1, Ok (t1, a)) => (set_session (set_seqs w s1) (Some t1), Ok a)
        | (s1, Raise e) => (set_seqs w s1, Raise e)
        end
    end.

(** [conn.commit()] *)
Definition commit : M unit :=
  round_trip ;;
  fun w =>
    match session w with
    | None => (w, Raise (PyException "connection already closed"))
    | Some t => (set_tables w t, Ok tt)
    end.

(** [conn.rollback()] *)
Definition rollback : M unit :=
  round_trip ;;
  fun w =>
    match session w with
    | None => (w, Raise (PyException "connection already closed"))
    | Some _ => (set_session w (Some (tables w)), Ok tt)
    end.

(** [cur.fetchone()] on the rows of the last statement. *)
Definition fetchone {A} (rows : list A) : option A := hd_error rows.

(** [print(...)] *)
Definition print (line : string) : M unit :=
  fun w => (set_stdout w (stdout w ++ [line]), Ok tt).

(** The salt [generate_password_hash] draws. *)
Definition gen_salt : M string :=
  fun w =>
    match salts w with
    | [] => (w, Ok "")
    | s :: rest => (set_salts w rest, Ok s)
    end.

(** ** Requests, as the handlers read them *)

(** [data.get("name")], [data.get("email")], [data.get("password")] *)
Record SignupReq := mkSignupReq {
  su_name : option string;
  su_email : option string;
  su_password : option string
}.

(** [data.get("email")], [data.get("password")], for [/login] and
    [/admin/login] *)
Record LoginReq := mkLoginReq {
  li_email : option string;
  li_password : option string
}.

(** [data.get("user_id")], [data.get("product_id")] and the [quantity] key
    of the body ([None]: the key is absent, [data.get("quantity", 1)] is 1). *)
Record AddToCartReq := mkAddToCartReq {
  ac_user_id : option Z;
  ac_product_id : option Z;
  ac_quantity : option Z
}.

(** The body of [POST /admin/product], read with [data[...]]: [None] is an
    absent key. *)
Record NewProduct := mkNewProduct {
  np_name : option string;
  np_category : option string;
  np_price : option Z;
  np_image_url : option string
}.

(** [/admin/product] accepts POST and DELETE. *)
Inductive ProductReq :=
| ProductPOST (data : NewProduct)
| ProductDELETE (id : option string).   (* request.args.get("id") *)

(** The body of [PUT /admin/orders], read with [data[...]]. *)
Record OrderUpdate := mkOrderUpdate {
  ou_status : option string;
  ou_order_id : option Z
}.

(** [/admin/orders] accepts GET and PUT. *)
Inductive OrdersReq :=
| OrdersGET
| OrdersPUT (data : OrderUpdate).

(** The routes of the application. *)
Inductive Request :=
| GET_home
| POST_signup (r : SignupReq)
| POST_login (r : LoginReq)
| GET_products (category : option string)
| POST_add_to_cart (r : AddToCartReq)
| GET_cart (user_id : option string)
| POST_admin_login (r : LoginReq)
| GET_admin_stats
| ANY_admin_product (r : ProductReq)
| ANY_admin_orders (r : OrdersReq).

(** ** Helpers on rows *)

Definition set_users (t : Tables) (l : list User) : Tables :=
  mkTables l (products t) (cart t) (orders t).
Definition set_products (t : Tables) (l : list Product) : Tables :=
  mkTables (users t) l (cart t) (orders t).
Definition set_cart (t : Tables) (l : list CartItem) : Tables :=
  mkTables (users t) (products t) l (orders t).
Definition set_orders (t : Tables) (l : list Order) : Tables :=
  mkTables (users t) (products t) (cart t) l.

Definition has_email (e : string) (u : User) : bool := (u_email u =? e)%string.

Definition cart_key (uid pid : Z) (c : CartItem) : bool :=
  (c_user_id c =? uid) && (c_product_id c =? pid).

Definition set_quantity (c : CartItem) (q : Z) : CartItem :=
  mkCartItem (c_id c) (c_user_id c) (c_product_id c) q.

Definition set_status (o : Order) (s : string) : Order :=
  mkOrder (o_id o) (o_user_id o) (o_total_amount o) s (o_created_at o).

(** A statement that only reads. *)
Definition query {A} (f : Tables -> A) : Stmt A :=
  fun s t => (s, Ok (t, f t)).

(** SQL's SUM: NULL over no rows. *)
Definition sql_sum (l : list Z) : option Z :=
  match l with
  | [] => None
  | _ => Some (fold_right Z.add 0 l)
  end.

(** SQL's COALESCE(x, d) *)
Definition coalesce (x : option Z) (d : Z) : Z :=
  match x with
  | Some v => v
  | None => d
  end.

(** SQL's COUNT( * ) *)
Definition sql_count {A} (l : list A) : Z := Z.of_nat (List.length l).

(** [a JOIN b ON on a b]: the pairs of rows that match. *)
Definition inner_join {A B} (on : A -> B -> bool) (a : list A) (b : list B)
  : list (A * B) :=
  flat_map (fun x => map (fun y => (x, y)) (filter (on x) b)) a.

(** ORDER BY o.created_at DESC, as a stable insertion sort on the joined
    rows of [/admin/orders]. *)
Fixpoint insert_desc (x : Order * User) (l : list (Order * User))
  : list (Order * User) :=
  match l with
  | [] => [x]
  | y :: l' =>
      if o_created_at (fst y) <? o_created_at (fst x)
      then x :: y :: l'
      else y :: insert_desc x l'
  end.

Definition order_by_created_at_desc (l : list (Order * User))
  : list (Order * User) :=
  fold_right insert_desc [] l.

(** [pwhash.count("$")] *)
Fixpoint count_dollar (s : string) : nat :=
  match s with
  | EmptyString => 0%nat
  | String c s' =>
      ((if Ascii.eqb c "$"%char then 1 else 0) + count_dollar s')%nat
  end.

(** ** The statements of [app.py]

    A parameter that is [None] reaches the store as NULL: a comparison
    with NULL selects no row, and the columns of the data model hold no
    NULL, so an INSERT of one is refused. *)

Definition not_null_violation : exn :=
  PyException "null value violates not-null constraint".

Definition bump_users (s : Seqs) : Seqs :=
  mkSeqs (users_id_seq s + 1) (products_id_seq s) (cart_id_seq s).
Definition bump_products (s : Seqs) : Seqs :=
  mkSeqs (users_id_seq s) (products_id_seq s + 1) (cart_id_seq s).
Definition bump_cart (s : Seqs) : Seqs :=
  mkSeqs (users_id_seq s) (products_id_seq s) (cart_id_seq s + 1).

(** INSERT INTO users (name, email, password) VALUES (%s, %s, %s) RETURNING id

    [email] carries the unique constraint; [is_admin] takes its default. *)
Definition sql_insert_user (name email : option string) (password : string)
  : Stmt Z :=
  fun s t =>
    match name, email with
    | Some n, Some e =>
        if existsb (has_email e) (users t) then
          (bump_users s,
           Raise (UniqueViolation "duplicate key value violates unique constraint"))
        else
          (bump_users s,
           Ok (set_users t (users t ++ [mkUser (users_id_seq s) n e password false]),
               users_id_seq s))
    | _, _ => (bump_users s, Raise not_null_violation)
    end.

(** The users WHERE email = %s *)
Definition users_where_email (email : option string) (t : Tables) : list User :=
  match email with
  | Some e => filter (has_email e) (users t)
  | None => []
  end.

(** SELECT id, name, password FROM users WHERE email = %s *)
Definition sql_select_user (email : option string)
  : Stmt (list (Z * string * string)) :=
  query (fun t =>
    map (fun u => (u_id u, u_name u, u_password u)) (users_where_email email t)).

(** SELECT id, name, password, is_admin FROM users WHERE email = %s *)
Definition sql_select_admin (email : option string)
  : Stmt (list (Z * string * string * bool)) :=
  query (fun t =>
    map (fun u => (u_id u, u_name u, u_password u, u_is_admin u))
        (users_where_email email t)).

(** SELECT id, name, price, category, image_url FROM products WHERE category = %s *)
Definition sql_select_products_by_category (category : option string)
  : Stmt (list Product) :=
  query (fun t =>
    match category with
    | Some c => filter (fun p => (p_category p =? c)%string) (products t)
    | None => []
    end).

(** SELECT id, name, price, category, image_url FROM products *)
Definition sql_select_products : Stmt (list Product) :=
  query products.

(** The cart rows WHERE user_id = %s AND product_id = %s *)
Definition cart_where (user_id product_id : option Z) (t : Tables)
  : list CartItem :=
  match user_id, product_id with
  | Some u, Some p => filter (cart_key u p) (cart t)
  | _, _ => []
  end.

(** SELECT id, quantity FROM cart WHERE user_id = %s AND product_id = %s *)
Definition sql_select_cart_item (user_id product_id : option Z)
  : Stmt (list (Z * Z)) :=
  query (fun t =>
    map (fun c => (c_id c, c_quantity c)) (cart_where user_id product_id t)).

(** UPDATE cart SET quantity = %s WHERE id = %s *)
Definition sql_update_cart_quantity (quantity id : Z) : Stmt unit :=
  fun s t =>
    (s, Ok (set_cart t
              (map (fun c => if c_id c =? id then set_quantity c quantity else c)
                   (cart t)),
            tt)).

(** INSERT INTO cart (user_id, product_id, quantity) VALUES (%s, %s, %s) *)
Definition sql_insert_cart (user_id product_id : option Z) (quantity : Z)
  : Stmt unit :=
  fun s t =>
    match user_id, product_id with
    | Some u, Some p =>
        (bump_cart s,
         Ok (set_cart t (cart t ++ [mkCartItem (cart_id_seq s) u p quantity]), tt))
    | _, _ => (bump_cart s, Raise not_null_violation)
    end.

(** SELECT COALESCE(SUM(total_amount), 0) FROM orders *)
Definition sql_revenue : Stmt Z :=
  query (fun t => coalesce (sql_sum (map o_total_amount (orders t))) 0).

(** SELECT COUNT( * ) FROM orders *)
Definition sql_count_orders : Stmt Z :=
  query (fun t => sql_count (orders t)).

(** SELECT COUNT( * ) FROM products *)
Definition sql_count_products : Stmt Z :=
  query (fun t => sql_count (products t)).

(** INSERT INTO products (name, category, price, image_url) VALUES (%s, %s, %s, %s) *)
Definition sql_insert_product (name category : string) (price : Z)
  (image_url : string) : Stmt unit :=
  fun s t =>
    (bump_products s,
     Ok (set_products t
           (products t ++ [mkProduct (products_id_seq s) name category price image_url]),
         tt)).

(** The orders joined with their users:
    FROM orders o JOIN users u ON o.user_id = u.id *)
Definition orders_join_users (t : Tables) : list (Order * User) :=
  inner_join (fun o u => o_user_id o =? u_id u) (orders t) (users t).

(** SELECT o.id, u.name, o.total_amount, o.status, o.created_at
    FROM orders o JOIN users u ON o.user_id = u.id
    ORDER BY o.created_at DESC *)
Definition sql_select_orders : Stmt (list (Order * User)) :=
  query (fun t => order_by_created_at_desc (orders_join_users t)).

(** UPDATE orders SET status = %s WHERE id = %s *)
Definition sql_update_order_status (status : string) (id : Z) : Stmt unit :=
  fun s t =>
    (s, Ok (set_orders t
              (map (fun o => if o_id o =? id then set_status o status else o)
                   (orders t)),
            tt)).

(** [data[key]]: KeyError when the key is absent; [str] of a KeyError is
    the key in quotes. *)
Definition getitem {A} (key : string) (v : option A) : M A :=
  match v with
  | Some a => ret a
  | None => raise (PyException ("'" ++ key ++ "'"))
  end.

(** [data.get("quantity", 1)] *)
Definition quantity_of (data : AddToCartReq) : Z :=
  match ac_quantity data with
  | Some q => q
  | None => 1
  end.

(** The handler of [GET /] *)
Definition home : M Response :=
  ret (jsonify (JDict [("status", JStr "Backend is running")]) 200).

(** ** Stand-ins for the collaborators, to run the handlers on examples *)

Definition demo_hash (salt password : string) : string :=
  "demo$" ++ salt ++ "$" ++ password.

Definition demo_verify (pwhash password : string) : result bool :=
  if String.prefix "demo$" pwhash
  then Ok (pwhash =? demo_hash "" password)%string
  else Raise (PyException "Invalid hash method").

Definition digit_of (c : ascii) : option Z :=
  let n := Z.of_nat (nat_of_ascii c) in
  if (48 <=? n) && (n <=? 57) then Some (n - 48) else None.

Fixpoint digits_from (acc : Z) (s : string) : option Z :=
  match s with
  | EmptyString => Some acc
  | String c s' =>
      match digit_of c with
      | Some d => digits_from (10 * acc + d) s'
      | None => None
      end
  end.

Definition demo_int4in (s : string) : option Z :=
  match s with
  | EmptyString => None
  | _ => digits_from 0 s
  end.

(** A small store: two users (the second an admin), two products, a cart
    row whose product is gone, and three orders. *)
Definition demo_tables : Tables :=
  mkTables
    [mkUser 1 "Ann" "ann@example.org" "demo$$secret" false;
     mkUser 2 "Root" "root@example.org" "demo$$admin" true]
    [mkProduct 7 "Mug" "kitchen" 450 "mug.png";
     mkProduct 8 "Pen" "office" 120 "pen.png"]
    [mkCartItem 1 1 7 2; mkCartItem 2 1 99 1; mkCartItem 3 2 8 4]
    [mkOrder 1 1 900 "pending" 100;
     mkOrder 2 2 120 "shipped" 300;
     mkOrder 3 1 450 "pending" 200].

Definition demo_world : World :=
  mkWorld demo_tables None (mkSeqs 3 9 4) [] (Some "postgres://shop") [] [].

(** The same store when the second round trip of a request fails. *)
Definition demo_world_failing : World :=
  mkWorld demo_tables None (mkSeqs 3 9 4) [] (Some "postgres://shop")
          [None; Some (PyException "server closed the connection unexpectedly")]
          [].

(** The same store when the COMMIT of a request fails and the rollback
    goes through. *)
Definition demo_world_failing_commit : World :=
  mkWorld demo_tables None (mkSeqs 3 9 4) [] (Some "postgres://shop")
          [None; None; None; Some (PyException "could not serialize access");
           None]
          [].

(** The same store when the INSERT of a request fails and the rollback
    goes through. *)
Definition demo_world_failing_insert : World :=
  mkWorld demo_tables None (mkSeqs 3 9 4) [] (Some "postgres://shop")
          [None; Some (PyException "disk full"); None]
          [].

(** The same store before any order is placed. *)
Definition demo_world_no_orders : World :=
  mkWorld (set_orders demo_tables []) None (mkSeqs 3 9 4) []
          (Some "postgres://shop") [] [].

(** The same store with no DATABASE_URL in the environment. *)
Definition demo_world_no_url : World :=
  mkWorld demo_tables None (mkSeqs 3 9 4) [] None [] [].

Section Shop.

(** The collaborators outside [app.py]: werkzeug's hash of a password
    under a salt; its verification of a password against a stored value of
    the form method$salt$hash, which answers or raises (a ValueError for a
    method it does not know); and the store's conversion of a quoted
    literal to an integer. *)
Variable hash_password : string -> string -> string.
Variable verify_password : string -> string -> result bool.
Variable int4in : string -> option Z.

(** [generate_password_hash(password)] encodes its argument, which [None]
    does not support. *)
Definition generate_password_hash (password : option string) : M string :=
  match password with
  | Some p => salt <- gen_salt ;; ret (hash_password salt p)
  | None => raise (PyException "'NoneType' object has no attribute 'encode'")
  end.

(** [check_password_hash(pwhash, password)]: a stored value that is not of
    the form method$salt$hash verifies nothing; otherwise the password is
    encoded, which [None] does not support, and hashed by the method of
    the stored value, which raises when the method is not known. *)
Definition check_password_hash (pwhash : string) (password : option string)
  : M bool :=
  if (count_dollar pwhash <? 2)%nat then ret false
  else
    match password with
    | Some p => lift (verify_password pwhash p)
    | None => raise (PyException "'NoneType' object has no attribute 'encode'")
    end.

(** The cart rows of a user joined with their products:
    FROM cart c JOIN products p ON c.product_id = p.id WHERE c.user_id = uid *)
Definition cart_join_products (uid : Z) (t : Tables) : list (CartItem * Product) :=
  inner_join (fun c p => c_product_id c =? p_id p)
             (filter (fun c => c_user_id c =? uid) (cart t))
             (products t).

Definition invalid_integer : exn :=
  PyException "invalid input syntax for type integer".

(** SELECT c.id, p.name, p.price, p.image_url, c.quantity
    FROM cart c JOIN products p ON c.product_id = p.id
    WHERE c.user_id = %s

    The parameter is the string of the query; the store converts it. *)
Definition sql_select_cart (user_id : option string)
  : Stmt (list (CartItem * Product)) :=
  fun s t =>
    match user_id with
    | None => (s, Ok (t, []))
    | Some v =>
        match int4in v with
        | Some uid => (s, Ok (t, cart_join_products uid t))
        | None => (s, Raise invalid_integer)
        end
    end.

(** DELETE FROM products WHERE id = %s *)
Definition sql_delete_product (id : option string) : Stmt unit :=
  fun s t =>
    match id with
    | None => (s, Ok (t, tt))
    | Some v =>
        match int4in v with
        | Some n =>
            (s, Ok (set_products t
                      (filter (fun p => negb (p_id p =? n)) (products t)), tt))
        | None => (s, Raise invalid_integer)
        end
    end.

(** ** The handlers *)

Definition error_body (msg : string) : json := JDict [("error", JStr msg)].
Definition message_body (msg : string) : json := JDict [("message", JStr msg)].

(** The [finally] block of every handler. *)
Definition release : M unit := cur_close ;; conn_close.

(** [POST /signup] *)
Definition signup (data : SignupReq) : M Response :=
  let name := su_name data in
  let email := su_email data in
  let password := su_password data in
  if negb (truthy_str name && truthy_str email && truthy_str password) then
    ret (jsonify (error_body "All fields required") 400)
  else
    hashed_password <- generate_password_hash password ;;
    get_db_connection ;;
    cursor ;;
    try_finally
      (try_except
         (execute (sql_insert_user name email hashed_password) ;;
          commit ;;
          ret (jsonify (message_body "Signup successful") 201))
         (fun e =>
            match e with
            | UniqueViolation _ =>
                rollback ;;
                ret (jsonify (error_body "Email already exists") 400)
            | _ =>
                rollback ;;
                print ("Error: " ++ str e) ;;
                ret (jsonify (error_body "Signup failed") 500)
            end))
      release.

(** [POST /login] *)
Definition login (data : LoginReq) : M Response :=
  let email := li_email data in
  let password := li_password data in
  if negb (truthy_str email) || negb (truthy_str password) then
    ret (jsonify (error_body "Email and password required") 400)
  else
    get_db_connection ;;
    cursor ;;
    try_finally
      (rows <- execute (sql_select_user email) ;;
       match fetchone rows with
       | Some (id, name, pwhash) =>
           ok <- check_password_hash pwhash password ;;
           if ok then
             ret (jsonify (JDict [("user_id", JNum id);
                                  ("name", JStr name);
                                  ("message", JStr "Login successful")]) 200)
           else
             ret (jsonify (error_body "Invalid email or password") 401)
       | None =>
           ret (jsonify (error_body "Invalid email or password") 401)
       end)
      release.

Definition product_json (p : Product) : json :=
  JDict [("id", JNum (p_id p)); ("name", JStr (p_name p));
         ("price", JNum (p_price p)); ("category", JStr (p_category p));
         ("image_url", JStr (p_image_url p))].

(** [GET /products] *)
Definition get_products (category : option string) : M Response :=
  get_db_connection ;;
  cursor ;;
  try_finally
    (rows <- (if truthy_str category
              then execute (sql_select_products_by_category category)
              else execute sql_select_products) ;;
     ret (jsonify (JList (map product_json rows)) 200))
    release.

(** [POST /add-to-cart] *)
Definition add_to_cart (data : AddToCartReq) : M Response :=
  let user_id := ac_user_id data in
  let product_id := ac_product_id data in
  let quantity := quantity_of data in
  if negb (truthy_int user_id) || negb (truthy_int product_id) then
    ret (jsonify (error_body "user_id and product_id required") 400)
  else
    get_db_connection ;;
    cursor ;;
    try_finally
      (try_except
         (rows <- execute (sql_select_cart_item user_id product_id) ;;
          match fetchone rows with
          | Some (existing_id, existing_quantity) =>
              execute (sql_update_cart_quantity
                         (existing_quantity + quantity) existing_id)
          | None =>
              execute (sql_insert_cart user_id product_id quantity)
          end ;;
          commit ;;
          ret (jsonify (message_body "Product added to cart") 200))
         (fun e =>
            rollback ;;
            print ("Error: " ++ str e) ;;
            ret (jsonify (error_body "Error adding to cart") 500)))
      release.

Definition cart_row_json (r : CartItem * Product) : json :=
  JDict [("id", JNum (c_id (fst r))); ("name", JStr (p_name (snd r)));
         ("price", JNum (p_price (snd r)));
         ("image_url", JStr (p_image_url (snd r)));
         ("quantity", JNum (c_quantity (fst r)))].

(** [GET /cart] *)
Definition get_cart (user_id : option string) : M Response :=
  if negb (truthy_str user_id) then
    ret (jsonify (error_body "user_id required") 400)
  else
    get_db_connection ;;
    cursor ;;
    try_finally
      (rows <- execute (sql_select_cart user_id) ;;
       ret (jsonify (JList (map cart_row_json rows)) 200))
      release.

(** [POST /admin/login] *)
Definition admin_login (data : LoginReq) : M Response :=
  let email := li_email data in
  let password := li_password data in
  get_db_connection ;;
  cursor ;;
  try_finally
    (rows <- execute (sql_select_admin email) ;;
     match fetchone rows with
     | Some (id, name, pwhash, is_admin) =>
         ok <- check_password_hash pwhash password ;;
         if ok then
           if is_admin then
             ret (jsonify (JDict [("admin_id", JNum id);
                                  ("name", JStr name);
                                  ("token", JStr "admin_secret_token")]) 200)
           else
             ret (jsonify (error_body "Access Denied: Admins only") 403)
         else
           ret (jsonify (error_body "Invalid credentials") 401)
     | None =>
         ret (jsonify (error_body "Invalid credentials") 401)
     end)
    release.

(** [GET /admin/stats] *)
Definition admin_stats : M Response :=
  get_db_connection ;;
  cursor ;;
  try_finally
    (revenue <- execute sql_revenue ;;
     orders_count <- execute sql_count_orders ;;
     products_count <- execute sql_count_products ;;
     ret (jsonify (JDict [("revenue", json_of_decimal revenue);
                          ("orders", JNum orders_count);
                          ("products", JNum products_count)]) 200))
    release.

(** [POST, DELETE /admin/product] *)
Definition manage_product (r : ProductReq) : M Response :=
  get_db_connection ;;
  cursor ;;
  try_finally
    (try_except
       (match r with
        | ProductPOST data =>
            name <- getitem "name" (np_name data) ;;
            category <- getitem "category" (np_category data) ;;
            price <- getitem "price" (np_price data) ;;
            image_url <- getitem "image_url" (np_image_url data) ;;
            execute (sql_insert_product name category price image_url) ;;
            commit ;;
            ret (jsonify (message_body "Product created") 201)
        | ProductDELETE product_id =>
            execute (sql_delete_product product_id) ;;
            commit ;;
            ret (jsonify (message_body "Product deleted") 200)
        end)
       (fun e =>
          rollback ;;
          ret (jsonify (error_body (str e)) 500)))
    release.

Definition order_json (r : Order * User) : json :=
  JDict [("id", JNum (o_id (fst r))); ("customer", JStr (u_name (snd r)));
         ("amount", JNum (o_total_amount (fst r)));
         ("status", JStr (o_status (fst r)));
         ("date", JNum (o_created_at (fst r)))].

(** [GET, PUT /admin/orders] *)
Definition manage_orders (r : OrdersReq) : M Response :=
  get_db_connection ;;
  cursor ;;
  try_finally
    (match r with
     | OrdersGET =>
         rows <- execute sql_select_orders ;;
         ret (jsonify (JList (map order_json rows)) 200)
     | OrdersPUT data =>
         status <- getitem "status" (ou_status data) ;;
         order_id <- getitem "order_id" (ou_order_id data) ;;
         execute (sql_update_order_status status order_id) ;;
         commit ;;
         ret (jsonify (message_body "Order updated") 200)
     end)
    release.

(** The routing table: [@app.route(...)]. *)
Definition dispatch (req : Request) : M Response :=
  match req with
  | GET_home => home
  | POST_signup r => signup r
  | POST_login r => login r
  | GET_products category => get_products category
  | POST_add_to_cart r => add_to_cart r
  | GET_cart user_id => get_cart user_id
  | POST_admin_login r => admin_login r
  | GET_admin_stats => admin_stats
  | ANY_admin_product r => manage_product r
  | ANY_admin_orders r => manage_orders r
  end.

(** ** Well-behaved runs of the store *)

(** The store is reachable and raises nothing of its own: the connection
    string is set and no failure is scheduled. *)
Definition healthy (w : World) : Prop :=
  truthy_str (database_url w) = true /\ faults w = [].

(** Most recent first. *)
Definition newer_first (a b : Order * User) : Prop :=
  o_created_at (fst b) <= o_created_at (fst a).

(** ** Predicates on runs and on tables *)

(** A computation that leaves the committed rows as they are. *)
Definition quiet {A} (m : M A) : Prop :=
  forall w, tables (fst (m w)) = tables w.

(** The routes that issue no [conn.commit()]. *)
Definition read_only (req : Request) : bool :=
  match req with
  | GET_home | POST_login _ | GET_products _ | GET_cart _
  | POST_admin_login _ | GET_admin_stats | ANY_admin_orders OrdersGET => true
  | _ => false
  end.

(** The requests that the presence checks of [signup], [login],
    [add_to_cart] and [get_cart] turn away. *)
Definition fails_presence_check (req : Request) : bool :=
  match req with
  | POST_signup r =>
      negb (truthy_str (su_name r) && truthy_str (su_email r)
            && truthy_str (su_password r))
  | POST_login r =>
      negb (truthy_str (li_email r)) || negb (truthy_str (li_password r))
  | POST_add_to_cart r =>
      negb (truthy_int (ac_user_id r)) || negb (truthy_int (ac_product_id r))
  | GET_cart user_id => negb (truthy_str user_id)
  | _ => false
  end.

(** The cart after the SELECT and the UPDATE or INSERT of [add_to_cart],
    [id] being the next value of the sequence. *)
Definition cart_after_add (u p q id : Z) (rows : list CartItem)
  : list CartItem :=
  match fetchone (filter (cart_key u p) rows) with
  | Some e =>
      map (fun c => if c_id c =? c_id e
                    then set_quantity c (c_quantity e + q) else c) rows
  | None => rows ++ [mkCartItem id u p q]
  end.

(** At most one cart row per pair of a user and a product. *)
Definition cart_unique_pairs (rows : list CartItem) : Prop :=
  forall u p, (List.length (filter (cart_key u p) rows) <= 1)%nat.

(** The ids of the cart are distinct and below the next value of the
    sequence. *)
Definition cart_ids_fresh (next : Z) (rows : list CartItem) : Prop :=
  NoDup (map c_id rows) /\ Forall (fun c => c_id c < next) rows.

(** * Properties *)

(** Runs the monad and the gateway as far as the data at hand decides. *)
Ltac run :=
  cbv beta iota zeta delta
    [bind ret raise lift try_except try_finally round_trip get_db_connection
     cursor cur_close conn_close release execute commit rollback print
     gen_salt fetchone hd_error query getitem jsonify
     set_tables set_session set_seqs set_stdout set_faults set_salts
     tables session seqs stdout database_url faults salts fst snd
     negb orb andb].

(** ** The monad and the gateway *)

Lemma round_trip_quiet (w : World) :
  faults w = [] -> round_trip w = (w, Ok tt).
Proof.
  intros Hf. unfold round_trip. now rewrite Hf.
Qed.

Lemma get_db_connection_healthy (w : World) :
  healthy w ->
  get_db_connection w = (set_session w (Some (tables w)), Ok tt).
Proof.
  intros [Hurl Hf]. unfold get_db_connection, bind.
  rewrite Hurl, (round_trip_quiet w Hf). reflexivity.
Qed.

Lemma execute_quiet {A} (q : Stmt A) (w : World) (t : Tables) :
  faults w = [] -> session w = Some t ->
  execute q w =
  match q (seqs w) t with
  | (s1, Ok (t1, a)) => (set_session (set_seqs w s1) (Some t1), Ok a)
  | (s1, Raise e) => (set_seqs w s1, Raise e)
  end.
Proof.
  intros Hf Hs. unfold execute, bind.
  rewrite (round_trip_quiet w Hf), Hs. reflexivity.
Qed.

Lemma commit_quiet (w : World) (t : Tables) :
  faults w = [] -> session w = Some t ->
  commit w = (set_tables w t, Ok tt).
Proof.
  intros Hf Hs. unfold commit, bind.
  rewrite (round_trip_quiet w Hf), Hs. reflexivity.
Qed.

Lemma rollback_quiet (w : World) (t : Tables) :
  faults w = [] -> session w = Some t ->
  rollback w = (set_session w (Some (tables w)), Ok tt).
Proof.
  intros Hf Hs. unfold rollback, bind.
  rewrite (round_trip_quiet w Hf), Hs. reflexivity.
Qed.

(** Whatever its body does, a [try ... finally: release] leaves no
    connection open. *)
Lemma try_finally_release {A} (body : M A) (w : World) :
  session (fst (try_finally body release w)) = None.
Proof.
  unfold try_finally. destruct (body w) as [w1 r]. reflexivity.
Qed.

(** [get_db_connection] either raises and opens nothing, or opens the
    connection the handler then holds. *)
Lemma get_db_connection_cases (w : World) :
  (exists e w1, get_db_connection w = (w1, Raise e) /\ session w1 = session w)
  \/ (exists w1, get_db_connection w = (w1, Ok tt)).
Proof.
  unfold get_db_connection, bind, round_trip.
  destruct (truthy_str (database_url w)).
  - destruct (faults w) as [|[e|] fs].
    + right. eexists. reflexivity.
    + left. exists e. eexists. split; reflexivity.
    + right. eexists. reflexivity.
  - left. do 2 eexists. split; reflexivity.
Qed.

(** The shape every handler with a connection has: acquire, take a cursor,
    and run the body under [finally: release]. *)
Lemma scoped_release {A} (body : M A) (w : World) :
  session w = None ->
  session (fst ((get_db_connection ;; cursor ;; try_finally body release) w)) = None.
Proof.
  intros Hs. unfold bind at 1.
  destruct (get_db_connection_cases w) as [(e & w1 & Hc & Hw1) | (w1 & Hc)];
    rewrite Hc.
  - simpl. congruence.
  - unfold bind, cursor, ret. apply try_finally_release.
Qed.

(** ** Release of the connection *)

(** C5.  Every handler, on every request, from every state of the world
    and under every schedule of failures (success, an error response or an
    exception that leaves the handler), ends with the connection
    it acquired closed: when no connection is open before the call, none
    is open after it. *)
Theorem connection_always_released (req : Request) (w : World) :
  session w = None ->
  session (fst (dispatch req w)) = None.
Proof.
  intros Hs.
  destruct req as [ | r | r | c | r | u | r | | r | r ]; simpl.
  - exact Hs.
  - unfold signup.
    destruct (negb _); [exact Hs|].
    unfold bind at 1.
    destruct (generate_password_hash (su_password r) w) as [w1 [h|e]] eqn:Hg.
    + assert (Hs1 : session w1 = None).
      { unfold generate_password_hash in Hg.
        destruct (su_password r); [|discriminate].
        unfold bind, gen_salt, ret in Hg.
        destruct (salts w); inversion Hg; subst; exact Hs. }
      apply scoped_release; exact Hs1.
    + unfold generate_password_hash in Hg.
      destruct (su_password r).
      * unfold bind, gen_salt, ret in Hg. destruct (salts w); discriminate.
      * inversion Hg; subst. exact Hs.
  - unfold login. destruct (_ || _); [exact Hs|]. now apply scoped_release.
  - unfold get_products. now apply scoped_release.
  - unfold add_to_cart. destruct (_ || _); [exact Hs|]. now apply scoped_release.
  - unfold get_cart. destruct (negb _); [exact Hs|]. now apply scoped_release.
  - unfold admin_login. now apply scoped_release.
  - unfold admin_stats. now apply scoped_release.
  - unfold manage_product. now apply scoped_release.
  - unfold manage_orders. now apply scoped_release.
Qed.

(** ** Accounts *)

(** C2.  A signup whose INSERT violates the unique constraint on email
    (the email belongs to a user already) answers 400 with the
    duplicate-email body, which is not the generic 500 answer; the insert
    is rolled back, so the tables, the users among them, are as before and
    hold no second row with that email; the connection is closed. *)
Theorem signup_duplicate_email (data : SignupReq) (email : string) (w : World) :
  healthy w ->
  truthy_str (su_name data) = true ->
  truthy_str (su_password data) = true ->
  su_email data = Some email ->
  truthy_str (su_email data) = true ->
  existsb (has_email email) (users (tables w)) = true ->
  let out := signup data w in
  snd out = Ok (jsonify (error_body "Email already exists") 400)
  /\ snd out <> Ok (jsonify (error_body "Signup failed") 500)
  /\ tables (fst out) = tables w
  /\ users (tables (fst out)) = users (tables w)
  /\ session (fst out) = None.
Proof.
  intros [Hurl Hf] Hn Hp He Het Hdup out. subst out.
  unfold signup. rewrite Hn, Hp, Het.
  change (negb (true && true && true)) with false. cbv iota.
  destruct (su_name data) as [name|]; [|discriminate].
  destruct (su_password data) as [password|]; [|discriminate].
  rewrite He.
  destruct w as [t s q o url f sl]. simpl in Hurl, Hf, Hdup. subst f.
  unfold generate_password_hash, sql_insert_user.
  destruct sl as [|salt sl]; run; rewrite Hurl; run; rewrite Hdup; run;
    repeat split; discriminate.
Qed.

Lemma users_where_email_absent (email : option string) (t : Tables) :
  (forall u, In u (users t) -> Some (u_email u) <> email) ->
  users_where_email email t = [].
Proof.
  intros Hno. destruct email as [e|]; [|reflexivity]. simpl.
  induction (users t) as [|u l IH]; [reflexivity|]. simpl.
  unfold has_email at 1.
  destruct (String.eqb_spec (u_email u) e) as [Heq|Hne].
  - exfalso. apply (Hno u); [now left | now rewrite Heq].
  - apply IH. intros u' Hin. apply Hno. now right.
Qed.

(** C3.  Two logins with email and password present, one for an email no
    user has and one for the email of a user whose password does not
    verify, get the same response: 401 with the body
    "Invalid email or password". *)
Theorem login_failures_indistinguishable
  (dataA dataB : LoginReq) (wA wB : World) (u : User) :
  healthy wA -> healthy wB ->
  truthy_str (li_email dataA) = true ->
  truthy_str (li_password dataA) = true ->
  truthy_str (li_email dataB) = true ->
  truthy_str (li_password dataB) = true ->
  (forall u', In u' (users (tables wA)) -> Some (u_email u') <> li_email dataA) ->
  fetchone (users_where_email (li_email dataB) (tables wB)) = Some u ->
  (forall w0, check_password_hash (u_password u) (li_password dataB) w0
              = (w0, Ok false)) ->
  snd (login dataA wA) = snd (login dataB wB)
  /\ snd (login dataA wA)
     = Ok (jsonify (error_body "Invalid email or password") 401)
  /\ status (jsonify (error_body "Invalid email or password") 401) = 401.
Proof.
  intros [HurlA HfA] [HurlB HfB] HeA HpA HeB HpB Hno Hfound Hbad.
  assert (HA : snd (login dataA wA)
               = Ok (jsonify (error_body "Invalid email or password") 401)).
  { unfold login. rewrite HeA, HpA.
    unfold sql_select_user.
    destruct wA as [t s q o url f sl]. simpl in HurlA, HfA, Hno. subst f.
    run. rewrite HurlA. run.
    rewrite (users_where_email_absent _ _ Hno). reflexivity. }
  assert (HB : snd (login dataB wB)
               = Ok (jsonify (error_body "Invalid email or password") 401)).
  { unfold login. rewrite HeB, HpB.
    unfold sql_select_user.
    destruct wB as [t s q o url f sl]. simpl in HurlB, HfB, Hfound. subst f.
    run. rewrite HurlB. run.
    destruct (users_where_email (li_email dataB) t) as [|u0 l];
      [discriminate|].
    simpl in Hfound. inversion Hfound; subst u0. cbn [map]. run.
    rewrite Hbad. reflexivity. }
  rewrite HA, HB. repeat split.
Qed.

(** C4.  An admin login whose email selects a user and whose password
    verifies answers 403 "Access Denied: Admins only" when the user is no
    admin, which is not the 401 of invalid credentials, and 200 with
    admin_id, name and the token when the user is an admin. *)
Theorem admin_login_role_check (data : LoginReq) (w : World) (u : User) :
  healthy w ->
  fetchone (users_where_email (li_email data) (tables w)) = Some u ->
  (forall w0, check_password_hash (u_password u) (li_password data) w0
              = (w0, Ok true)) ->
  (u_is_admin u = false ->
   snd (admin_login data w)
   = Ok (jsonify (error_body "Access Denied: Admins only") 403)
   /\ snd (admin_login data w)
      <> Ok (jsonify (error_body "Invalid credentials") 401))
  /\ (u_is_admin u = true ->
      snd (admin_login data w)
      = Ok (jsonify (JDict [("admin_id", JNum (u_id u));
                            ("name", JStr (u_name u));
                            ("token", JStr "admin_secret_token")]) 200)).
Proof.
  intros [Hurl Hf] Hfound Hok.
  assert (Hrun : snd (admin_login data w)
                 = if u_is_admin u
                   then Ok (jsonify (JDict [("admin_id", JNum (u_id u));
                                            ("name", JStr (u_name u));
                                            ("token", JStr "admin_secret_token")])
                                    200)
                   else Ok (jsonify (error_body "Access Denied: Admins only") 403)).
  { unfold admin_login, sql_select_admin.
    destruct w as [t s q o url f sl]. simpl in Hurl, Hf, Hfound. subst f.
    run. rewrite Hurl. run.
    destruct (users_where_email (li_email data) t) as [|u0 l];
      [discriminate|].
    simpl in Hfound. inversion Hfound; subst u0. cbn [map]. run.
    rewrite Hok. destruct (u_is_admin u); reflexivity. }
  rewrite Hrun. split; intros Hadm; rewrite Hadm.
  - split; [reflexivity | discriminate].
  - reflexivity.
Qed.

(** Where a missing input does reach the 401 of [admin_login]: the answer
    is 401 "Invalid credentials", and not a 400, when the email is
    missing, and when the password is missing and the verification is
    never asked to encode it (no user has the email, or the stored
    password of the user found is not of the form method$salt$hash). *)
Theorem admin_login_missing_inputs (data : LoginReq) (w : World) :
  healthy w ->
  li_email data = None
  \/ (li_password data = None
      /\ match fetchone (users_where_email (li_email data) (tables w)) with
         | Some u => (count_dollar (u_password u) <? 2)%nat = true
         | None => True
         end) ->
  snd (admin_login data w)
  = Ok (jsonify (error_body "Invalid credentials") 401)
  /\ forall r, snd (admin_login data w) = Ok r -> status r <> 400.
Proof.
  intros [Hurl Hf] Hmiss.
  assert (Hrun : snd (admin_login data w)
                 = Ok (jsonify (error_body "Invalid credentials") 401)).
  { unfold admin_login, sql_select_admin.
    destruct w as [t s q o url f sl]. simpl in Hurl, Hf, Hmiss. subst f.
    run. rewrite Hurl. run.
    destruct Hmiss as [He | [Hp Hfetch]].
    - rewrite He. reflexivity.
    - destruct (users_where_email (li_email data) t) as [|u0 l];
        [reflexivity|].
      simpl in Hfetch. cbn [map]. run.
      unfold check_password_hash. rewrite Hfetch. reflexivity. }
  split; [exact Hrun|].
  intros r Hr. rewrite Hrun in Hr. inversion Hr; subst r. discriminate.
Qed.

(** ** Statistics and orders *)

Lemma coalesce_sum (l : list Z) :
  coalesce (sql_sum l) 0 = fold_right Z.add 0 l.
Proof.
  destruct l; reflexivity.
Qed.

(** The rows of an inner join are the pairs of rows that satisfy the join
    condition. *)
Lemma in_inner_join {A B} (on : A -> B -> bool) (a : list A) (b : list B)
  (x : A) (y : B) :
  In (x, y) (inner_join on a b) <-> In x a /\ In y b /\ on x y = true.
Proof.
  unfold inner_join. rewrite in_flat_map. split.
  - intros (x' & Hx & Hin). apply in_map_iff in Hin.
    destruct Hin as (y' & Heq & Hy). inversion Heq; subst.
    apply filter_In in Hy. tauto.
  - intros (Hx & Hy & Hon). exists x. split; [exact Hx|].
    apply in_map_iff. exists y. split; [reflexivity|].
    apply filter_In. tauto.
Qed.

Lemma insert_desc_perm (x : Order * User) (l : list (Order * User)) :
  Permutation (x :: l) (insert_desc x l).
Proof.
  induction l as [|y l IH]; simpl.
  - apply Permutation_refl.
  - destruct (o_created_at (fst y) <? o_created_at (fst x)).
    + apply Permutation_refl.
    + eapply perm_trans; [apply perm_swap|]. now apply perm_skip.
Qed.

Lemma order_by_perm (l : list (Order * User)) :
  Permutation l (order_by_created_at_desc l).
Proof.
  induction l as [|x l IH]; simpl.
  - apply perm_nil.
  - eapply perm_trans; [apply perm_skip, IH|]. apply insert_desc_perm.
Qed.

Lemma insert_desc_sorted (x : Order * User) (l : list (Order * User)) :
  StronglySorted newer_first l ->
  StronglySorted newer_first (insert_desc x l).
Proof.
  induction 1 as [|y l Hs IH Hall]; simpl.
  - repeat constructor.
  - destruct (Z.ltb_spec (o_created_at (fst y)) (o_created_at (fst x)))
      as [Hlt|Hge].
    + constructor; [now constructor|].
      constructor; [unfold newer_first; lia|].
      eapply Forall_impl; [|exact Hall].
      intros z Hz. unfold newer_first in *. lia.
    + constructor; [exact IH|].
      eapply Permutation_Forall; [apply insert_desc_perm|].
      constructor; [exact Hge | exact Hall].
Qed.

Lemma order_by_sorted (l : list (Order * User)) :
  StronglySorted newer_first (order_by_created_at_desc l).
Proof.
  induction l as [|x l IH]; simpl.
  - constructor.
  - now apply insert_desc_sorted.
Qed.

(** C7.  In every state of the store, the list of orders is made of the
    orders inner-joined with their users (an order with its user for every
    pair with [o.user_id = u.id], each once), most recent created_at
    first. *)
Theorem list_orders_newest_first (w : World) :
  healthy w ->
  exists rows,
    snd (manage_orders (OrdersGET) w)
    = Ok (jsonify (JList (map order_json rows)) 200)
    /\ Permutation
         (inner_join (fun o u => o_user_id o =? u_id u)
                     (orders (tables w)) (users (tables w)))
         rows
    /\ (forall o u, In (o, u) rows <->
          In o (orders (tables w)) /\ In u (users (tables w))
          /\ o_user_id o = u_id u)
    /\ StronglySorted newer_first rows.
Proof.
  intros [Hurl Hf].
  exists (order_by_created_at_desc (orders_join_users (tables w))).
  split; [|split; [|split]].
  - unfold manage_orders, sql_select_orders.
    destruct w as [t s q o url f sl]. simpl in Hurl, Hf. subst f.
    run. rewrite Hurl. run. reflexivity.
  - apply order_by_perm.
  - intros o u. split.
    + intros Hin.
      apply (Permutation_in _ (Permutation_sym (order_by_perm _))) in Hin.
      apply in_inner_join in Hin. now rewrite Z.eqb_eq in Hin.
    + intros Hin. apply (Permutation_in _ (order_by_perm _)).
      apply in_inner_join. now rewrite Z.eqb_eq.
  - apply order_by_sorted.
Qed.

(** ** The cart *)

(** C9.  In every state of the store and for every user_id the store reads
    as an integer, the cart listing answers 200 with exactly the pairs of
    a cart row of the user and the product row its product_id names: every
    row returned has an existing product, and a cart row whose product_id
    names no product is left out, with no error. *)
Theorem get_cart_inner_join (user_id : string) (uid : Z) (w : World) :
  healthy w ->
  truthy_str (Some user_id) = true ->
  int4in user_id = Some uid ->
  exists rows,
    snd (get_cart (Some user_id) w)
    = Ok (jsonify (JList (map cart_row_json rows)) 200)
    /\ (forall c p, In (c, p) rows <->
          In c (cart (tables w)) /\ c_user_id c = uid
          /\ In p (products (tables w)) /\ c_product_id c = p_id p)
    /\ (forall c, In c (cart (tables w)) ->
          (forall p, In p (products (tables w)) -> p_id p <> c_product_id c) ->
          ~ In c (map fst rows)).
Proof.
  clear hash_password verify_password.
  intros [Hurl Hf] Htruthy Hint.
  exists (cart_join_products uid (tables w)).
  assert (Hrows : forall c p, In (c, p) (cart_join_products uid (tables w)) <->
          In c (cart (tables w)) /\ c_user_id c = uid
          /\ In p (products (tables w)) /\ c_product_id c = p_id p).
  { intros c p. unfold cart_join_products.
    rewrite in_inner_join, filter_In, !Z.eqb_eq. tauto. }
  split; [|split].
  - unfold get_cart. rewrite Htruthy. unfold sql_select_cart.
    destruct w as [t s q o url f sl]. simpl in Hurl, Hf. subst f.
    run. rewrite Hurl. run. rewrite Hint. reflexivity.
  - exact Hrows.
  - intros c Hc Hnone Hin. apply in_map_iff in Hin.
    destruct Hin as ([c' p] & Heq & Hin). simpl in Heq. subst c'.
    apply Hrows in Hin. destruct Hin as (_ & _ & Hp & Hid).
    apply (Hnone p Hp). now symmetry.
Qed.

(** What [add_to_cart] does when the store raises nothing. *)
Lemma add_to_cart_run (data : AddToCartReq) (u p : Z) (w : World) :
  healthy w ->
  ac_user_id data = Some u -> ac_product_id data = Some p ->
  truthy_int (ac_user_id data) = true ->
  truthy_int (ac_product_id data) = true ->
  add_to_cart data w
  = (match fetchone (filter (cart_key u p) (cart (tables w))) with
     | Some e =>
         mkWorld
           (set_cart (tables w)
              (map (fun c => if c_id c =? c_id e
                             then set_quantity c (c_quantity e + quantity_of data)
                             else c)
                   (cart (tables w))))
           None (seqs w) (stdout w) (database_url w) [] (salts w)
     | None =>
         mkWorld
           (set_cart (tables w)
              (cart (tables w)
               ++ [mkCartItem (cart_id_seq (seqs w)) u p (quantity_of data)]))
           None (bump_cart (seqs w)) (stdout w) (database_url w) [] (salts w)
     end,
     Ok (jsonify (message_body "Product added to cart") 200)).
Proof.
  intros [Hurl Hf] Hu Hp Htu Htp.
  unfold add_to_cart. rewrite Htu, Htp, Hu, Hp.
  unfold sql_select_cart_item, sql_update_cart_quantity, sql_insert_cart,
    cart_where.
  destruct w as [t s q o url f sl]. simpl in Hurl, Hf. subst f.
  run. rewrite Hurl. run.
  destruct (filter (cart_key u p) (cart t)) as [|e l]; cbn [map]; run;
    reflexivity.
Qed.

Lemma map_no_id (id q : Z) (l : list CartItem) :
  ~ In id (map c_id l) ->
  map (fun c => if c_id c =? id then set_quantity c q else c) l = l.
Proof.
  induction l as [|a l IH]; simpl; intros Hn; [reflexivity|].
  destruct (Z.eqb_spec (c_id a) id) as [Heq|Hne].
  - exfalso. apply Hn. now left.
  - f_equal. apply IH. intros Hin. apply Hn. now right.
Qed.

(** Under unique ids, the UPDATE by the id of the first row of a selection
    changes that row and no other. *)
Lemma update_first_match (f : CartItem -> bool) (q : Z) (l : list CartItem)
  (e : CartItem) :
  NoDup (map c_id l) ->
  fetchone (filter f l) = Some e ->
  exists l1 l2,
    l = (l1 ++ e :: l2)%list
    /\ map (fun c => if c_id c =? c_id e then set_quantity c q else c) l
       = (l1 ++ set_quantity e q :: l2)%list.
Proof.
  induction l as [|a l IH]; simpl; intros Hnd Hfetch; [discriminate|].
  inversion Hnd as [|? ? Hnotin Hnd']; subst.
  destruct (f a) eqn:Hfa.
  - simpl in Hfetch. inversion Hfetch; subst a.
    exists [], l. split; [reflexivity|]. simpl.
    rewrite Z.eqb_refl. f_equal. now apply map_no_id.
  - destruct (IH Hnd' Hfetch) as (l1 & l2 & Hl & Hmap).
    exists (a :: l1), l2. split; [simpl; now rewrite Hl|].
    simpl. rewrite Hmap.
    destruct (Z.eqb_spec (c_id a) (c_id e)) as [Heq|Hne]; [|reflexivity].
    exfalso. apply Hnotin. rewrite Heq, Hl, map_app. apply in_or_app.
    right. now left.
Qed.

Lemma cart_key_new (id u p q : Z) :
  cart_key u p (mkCartItem id u p q) = true.
Proof.
  unfold cart_key. simpl. now rewrite !Z.eqb_refl.
Qed.

Lemma filter_map_set_quantity (u p id q : Z) (l : list CartItem) :
  filter (cart_key u p)
         (map (fun c => if c_id c =? id then set_quantity c q else c) l)
  = map (fun c => if c_id c =? id then set_quantity c q else c)
        (filter (cart_key u p) l).
Proof.
  induction l as [|a l IH]; simpl; [reflexivity|].
  assert (Hkey : cart_key u p (if c_id a =? id then set_quantity a q else a)
                 = cart_key u p a).
  { destruct (c_id a =? id); reflexivity. }
  rewrite Hkey. destruct (cart_key u p a); simpl; now rewrite IH.
Qed.

(** C1.  A call of addToCart with user_id and product_id present answers
    200 and
    - when the cart has a row for the pair already, the row the SELECT
      finds gets the quantity it had plus the given one, and no row is
      added; with ids unique, every other row is as before;
    - when the cart has no row for the pair, one row, with the given
      quantity, is added after the rows there were.
    In particular, from a cart with no row for (u, p), addToCart(u, p, 2)
    and then addToCart(u, p, 3) leave exactly one row for (u, p), of
    quantity 5. *)
Theorem add_to_cart_merge_or_insert (data : AddToCartReq) (u p : Z) (w : World) :
  healthy w ->
  ac_user_id data = Some u -> ac_product_id data = Some p ->
  truthy_int (ac_user_id data) = true ->
  truthy_int (ac_product_id data) = true ->
  let rows := cart (tables w) in
  let rows' := cart (tables (fst (add_to_cart data w))) in
  snd (add_to_cart data w)
  = Ok (jsonify (message_body "Product added to cart") 200)
  /\ (forall e, fetchone (filter (cart_key u p) rows) = Some e ->
        List.length rows' = List.length rows
        /\ (NoDup (map c_id rows) ->
            exists l1 l2,
              rows = (l1 ++ e :: l2)%list
              /\ rows' = (l1 ++ set_quantity e (c_quantity e + quantity_of data)
                             :: l2)%list))
  /\ (filter (cart_key u p) rows = [] ->
      rows' = (rows ++ [mkCartItem (cart_id_seq (seqs w)) u p (quantity_of data)])%list)
  /\ (filter (cart_key u p) rows = [] ->
      let w2 := fst (add_to_cart (mkAddToCartReq (Some u) (Some p) (Some 2)) w) in
      let w3 := fst (add_to_cart (mkAddToCartReq (Some u) (Some p) (Some 3)) w2) in
      exists id,
        filter (cart_key u p) (cart (tables w3)) = [mkCartItem id u p 5]).
Proof.
  intros Hw Hu Hp Htu Htp rows rows'.
  pose proof (add_to_cart_run data u p w Hw Hu Hp Htu Htp) as Hrun.
  subst rows'. rewrite Hrun. fold rows.
  split; [reflexivity|]. split; [|split].
  - intros e He. rewrite He. simpl. split.
    + apply length_map.
    + intros Hnd. now apply update_first_match with (f := cart_key u p).
  - intros Hnone. rewrite Hnone. reflexivity.
  - intros Hnone.
    assert (Htu' : truthy_int (Some u) = true) by now rewrite <- Hu.
    assert (Htp' : truthy_int (Some p) = true) by now rewrite <- Hp.
    pose proof (add_to_cart_run (mkAddToCartReq (Some u) (Some p) (Some 2))
                  u p w Hw eq_refl eq_refl Htu' Htp') as Hrun2.
    fold rows in Hrun2. rewrite Hnone in Hrun2.
    cbn [fetchone hd_error quantity_of ac_quantity] in Hrun2.
    cbv zeta. rewrite Hrun2. cbn [fst].
    set (r2 := mkCartItem (cart_id_seq (seqs w)) u p 2).
    set (w2 := mkWorld _ _ _ _ _ _ _).
    assert (Hw2 : healthy w2)
      by (destruct Hw; split; [assumption | reflexivity]).
    assert (Hsel : filter (cart_key u p) (cart (tables w2)) = [r2]).
    { subst w2. cbn [tables cart set_cart]. rewrite filter_app, Hnone.
      cbn [filter app]. unfold r2. now rewrite cart_key_new. }
    rewrite (add_to_cart_run (mkAddToCartReq (Some u) (Some p) (Some 3))
               u p w2 Hw2 eq_refl eq_refl Htu' Htp').
    rewrite Hsel.
    cbn [fetchone hd_error fst tables cart set_cart quantity_of ac_quantity].
    exists (cart_id_seq (seqs w)).
    rewrite filter_map_set_quantity, Hsel.
    subst r2. cbn [map c_id c_quantity]. rewrite Z.eqb_refl. reflexivity.
Qed.

(** ** Storage failures *)

(** In [signup], a failure of the store other than the unique violation
    is answered with a fixed text, and its message goes to the standard
    output. *)
Lemma signup_storage_error_generic (data : SignupReq) (w : World)
  (msg : string) (rest : list (option exn)) :
  truthy_str (database_url w) = true ->
  faults w = None :: Some (PyException msg) :: None :: rest ->
  truthy_str (su_name data) = true ->
  truthy_str (su_email data) = true ->
  truthy_str (su_password data) = true ->
  snd (signup data w) = Ok (jsonify (error_body "Signup failed") 500)
  /\ stdout (fst (signup data w)) = (stdout w ++ [("Error: " ++ msg)%string])%list.
Proof.
  intros Hurl Hf Hn He Hp.
  unfold signup. rewrite Hn, He, Hp.
  destruct (su_password data) as [password|]; [|discriminate].
  destruct w as [t s q o url f sl]. simpl in Hurl, Hf. subst f.
  unfold generate_password_hash.
  destruct sl as [|salt sl]; run; rewrite Hurl; run; split; reflexivity.
Qed.

(** In [manage_product], the same failure is answered with the message of
    the exception, and nothing is written to the standard output. *)
Lemma manage_product_storage_error (r : ProductReq) (w : World)
  (e : exn) (rest : list (option exn)) :
  truthy_str (database_url w) = true ->
  faults w = None :: Some e :: None :: rest ->
  (forall data, r = ProductPOST data ->
     np_name data <> None /\ np_category data <> None
     /\ np_price data <> None /\ np_image_url data <> None) ->
  snd (manage_product r w) = Ok (jsonify (error_body (str e)) 500)
  /\ stdout (fst (manage_product r w)) = stdout w.
Proof.
  intros Hurl Hf Hkeys.
  unfold manage_product.
  destruct w as [t s q o url f sl]. simpl in Hurl, Hf. subst f.
  destruct r as [data|id].
  - destruct (Hkeys data eq_refl) as (Hn & Hc & Hp & Hi).
    destruct (np_name data); [|contradiction].
    destruct (np_category data); [|contradiction].
    destruct (np_price data); [|contradiction].
    destruct (np_image_url data); [|contradiction].
    run. rewrite Hurl. run. split; reflexivity.
  - run. rewrite Hurl. run. split; reflexivity.
Qed.

(** * Further properties of the handlers *)

(** ** Handlers that only read *)

Lemma quiet_ret {A} (a : A) : quiet (ret a).
Proof. intros w. reflexivity. Qed.

Lemma quiet_raise {A} (e : exn) : quiet (@raise A e).
Proof. intros w. reflexivity. Qed.

Lemma quiet_bind {A B} (m : M A) (k : A -> M B) :
  quiet m -> (forall a, quiet (k a)) -> quiet (bind m k).
Proof.
  intros Hm Hk w. unfold bind. specialize (Hm w).
  destruct (m w) as [w1 [a|e]]; simpl in *.
  - now rewrite Hk.
  - exact Hm.
Qed.

Lemma quiet_try_except {A} (body : M A) (handler : exn -> M A) :
  quiet body -> (forall e, quiet (handler e)) -> quiet (try_except body handler).
Proof.
  intros Hb Hh w. unfold try_except. specialize (Hb w).
  destruct (body w) as [w1 [a|e]]; simpl in *.
  - exact Hb.
  - now rewrite Hh.
Qed.

Lemma quiet_try_finally {A} (body : M A) (fin : M unit) :
  quiet body -> quiet fin -> quiet (try_finally body fin).
Proof.
  intros Hb Hf w. unfold try_finally. specialize (Hb w).
  destruct (body w) as [w1 r]. specialize (Hf w1).
  destruct (fin w1) as [w2 [u|e]]; simpl in *; congruence.
Qed.

Lemma quiet_round_trip : quiet round_trip.
Proof.
  intros w. unfold round_trip. destruct (faults w) as [|[e|] fs]; reflexivity.
Qed.

Lemma quiet_get_db_connection : quiet get_db_connection.
Proof.
  intros w. unfold get_db_connection.
  destruct (truthy_str (database_url w)); [|reflexivity].
  unfold bind. pose proof (quiet_round_trip w) as Hr.
  destruct (round_trip w) as [w1 [u|e]]; exact Hr.
Qed.

Lemma quiet_execute {A} (q : Stmt A) : quiet (execute q).
Proof.
  intros w. unfold execute, bind. pose proof (quiet_round_trip w) as Hr.
  destruct (round_trip w) as [w1 [u|e]]; simpl in *; [|exact Hr].
  destruct (session w1) as [t|]; [|exact Hr].
  destruct (q (seqs w1) t) as [s1 [[t1 a]|e]]; exact Hr.
Qed.

Lemma quiet_rollback : quiet rollback.
Proof.
  intros w. unfold rollback, bind. pose proof (quiet_round_trip w) as Hr.
  destruct (round_trip w) as [w1 [u|e]]; simpl in *; [|exact Hr].
  destruct (session w1); exact Hr.
Qed.

Lemma quiet_release : quiet release.
Proof. intros w. reflexivity. Qed.

Lemma quiet_cursor : quiet cursor.
Proof. intros w. reflexivity. Qed.

Lemma quiet_print (line : string) : quiet (print line).
Proof. intros w. reflexivity. Qed.

Lemma quiet_getitem {A} (key : string) (v : option A) : quiet (getitem key v).
Proof. intros w. destruct v; reflexivity. Qed.

Lemma quiet_lift {A} (r : result A) : quiet (lift r).
Proof. intros w. reflexivity. Qed.

Lemma quiet_check_password_hash (pwhash : string) (password : option string) :
  quiet (check_password_hash pwhash password).
Proof.
  intros w. unfold check_password_hash.
  destruct (count_dollar pwhash <? 2)%nat; [reflexivity|].
  destruct password; [apply quiet_lift | reflexivity].
Qed.

Create HintDb quiet.
#[local] Hint Resolve quiet_ret quiet_raise quiet_round_trip
  quiet_get_db_connection quiet_execute quiet_rollback quiet_release
  quiet_cursor quiet_print quiet_getitem quiet_check_password_hash : quiet.

(** Breaks a handler into the steps it is made of. *)
Ltac quiet_steps :=
  repeat first
    [ progress intros
    | solve [auto with quiet]
    | apply quiet_bind
    | apply quiet_try_finally
    | apply quiet_try_except
    | match goal with
      | |- quiet (match ?x with _ => _ end) => destruct x
      end ].

Lemma quiet_login (data : LoginReq) : quiet (login data).
Proof. unfold login. quiet_steps. Qed.

Lemma quiet_get_products (category : option string) :
  quiet (get_products category).
Proof. unfold get_products. quiet_steps. Qed.

Lemma quiet_get_cart (user_id : option string) : quiet (get_cart user_id).
Proof. unfold get_cart. quiet_steps. Qed.

Lemma quiet_admin_login (data : LoginReq) : quiet (admin_login data).
Proof. unfold admin_login. quiet_steps. Qed.

Lemma quiet_admin_stats : quiet admin_stats.
Proof. unfold admin_stats. quiet_steps. Qed.

Lemma quiet_list_orders : quiet (manage_orders OrdersGET).
Proof. unfold manage_orders. quiet_steps. Qed.

(** X1.  The routes that issue no commit (the home page, login, the
    product list, the cart list, admin login, the statistics and the list
    of orders) leave the committed tables as they were, whatever the
    request, the state and the failures of the store. *)
Theorem read_only_routes_keep_tables (req : Request) (w : World) :
  read_only req = true ->
  tables (fst (dispatch req w)) = tables w.
Proof.
  intros Hro.
  destruct req as [ | r | r | c | r | u | r | | r | [|d] ];
    try discriminate; simpl.
  - reflexivity.
  - apply quiet_login.
  - apply quiet_get_products.
  - apply quiet_get_cart.
  - apply quiet_admin_login.
  - apply quiet_admin_stats.
  - apply quiet_list_orders.
Qed.

(** ** Requests turned away before the store is used *)

(** X2.  A request that fails the presence check of its handler (a name,
    email or password that is missing or empty; a user_id or product_id
    that is missing or 0; a user_id of the query that is missing or empty)
    is answered 400 with an error body, and the world is as before: no
    connection is opened, no round trip to the store is made, no salt is
    drawn. *)
Theorem presence_check_answers_400 (req : Request) (w : World) :
  fails_presence_check req = true ->
  exists msg,
    dispatch req w = (w, Ok (jsonify (error_body msg) 400)).
Proof.
  intros Hfail.
  destruct req as [ | r | r | c | r | u | r | | r | r ];
    try discriminate; simpl in *.
  - exists "All fields required". unfold signup. now rewrite Hfail.
  - exists "Email and password required". unfold login. now rewrite Hfail.
  - exists "user_id and product_id required". unfold add_to_cart.
    now rewrite Hfail.
  - exists "user_id required". unfold get_cart. now rewrite Hfail.
Qed.

(** X3.  Without a DATABASE_URL (unset or empty), a route other than the
    home page answers at most the 400 of its presence check; otherwise
    [get_db_connection] raises, the exception leaves the handler, and no
    connection is opened and no table changed. *)
Theorem no_database_url (req : Request) (w : World) :
  truthy_str (database_url w) = false ->
  req <> GET_home ->
  ((exists msg, snd (dispatch req w) = Ok (jsonify (error_body msg) 400))
   \/ snd (dispatch req w)
      = Raise (PyException "DATABASE_URL environment variable not set"))
  /\ session (fst (dispatch req w)) = session w
  /\ tables (fst (dispatch req w)) = tables w.
Proof.
  intros Hurl Hreq.
  destruct w as [t s q o url f sl]. simpl in Hurl.
  destruct req as [ | r | r | c | r | u | r | | r | r ]; simpl;
    [ contradiction
    | unfold signup, generate_password_hash;
      destruct (negb _) eqn:Hguard;
      [| destruct (su_password r) as [p|];
         [ destruct sl as [|salt sl]
         | simpl in Hguard; rewrite andb_false_r in Hguard; discriminate ] ]
    | unfold login; destruct (_ || _)
    | unfold get_products
    | unfold add_to_cart; destruct (_ || _)
    | unfold get_cart; destruct (negb _)
    | unfold admin_login
    | unfold admin_stats
    | unfold manage_product
    | unfold manage_orders ];
    run; try rewrite Hurl; run;
    (split; [first [right; reflexivity | left; eexists; reflexivity]
            | split; reflexivity]).
Qed.

(** ** Handlers that write: all or nothing *)

(** Follows a handler through the schedule of failures, one round trip
    after the other. *)
Ltac follow_schedule :=
  repeat (run;
          match goal with
          | |- context [match ?f with [] => _ | _ :: _ => _ end] =>
              is_var f; destruct f as [|[?|] ?]
          | |- context [match ?e with UniqueViolation _ => _
                                    | PyException _ => _ end] =>
              is_var e; destruct e
          end).

Ltac unchanged_or_done :=
  first [ left; repeat split; first [discriminate | reflexivity | cbn; lia]
        | right; repeat split; reflexivity ].

(** [add_to_cart] under every schedule of failures. *)
Lemma add_to_cart_outcomes (data : AddToCartReq) (u p : Z) (w : World) :
  ac_user_id data = Some u -> ac_product_id data = Some p ->
  (snd (add_to_cart data w)
   <> Ok (jsonify (message_body "Product added to cart") 200)
   /\ tables (fst (add_to_cart data w)) = tables w
   /\ cart_id_seq (seqs w) <= cart_id_seq (seqs (fst (add_to_cart data w))))
  \/ (snd (add_to_cart data w)
      = Ok (jsonify (message_body "Product added to cart") 200)
      /\ tables (fst (add_to_cart data w))
         = set_cart (tables w)
             (cart_after_add u p (quantity_of data) (cart_id_seq (seqs w))
                (cart (tables w)))
      /\ cart_id_seq (seqs (fst (add_to_cart data w)))
         = match fetchone (filter (cart_key u p) (cart (tables w))) with
           | Some _ => cart_id_seq (seqs w)
           | None => cart_id_seq (seqs w) + 1
           end).
Proof.
  intros Hu Hp.
  unfold add_to_cart. rewrite Hu, Hp.
  destruct (negb (truthy_int (Some u)) || negb (truthy_int (Some p)));
    [run; unchanged_or_done|].
  unfold sql_select_cart_item, sql_update_cart_quantity, sql_insert_cart,
    cart_where, cart_after_add.
  destruct w as [t s q o url f sl].
  destruct (truthy_str url) eqn:Hurl; run; rewrite Hurl;
    [|unchanged_or_done].
  follow_schedule; try unchanged_or_done;
    destruct (filter (cart_key u p) (cart t)) as [|e l]; cbn [map];
    follow_schedule; unchanged_or_done.
Qed.

(** [signup] under every schedule of failures. *)
Lemma signup_outcomes (data : SignupReq) (name email password : string)
  (w : World) :
  su_name data = Some name -> su_email data = Some email ->
  su_password data = Some password ->
  (snd (signup data w) <> Ok (jsonify (message_body "Signup successful") 201)
   /\ tables (fst (signup data w)) = tables w)
  \/ (snd (signup data w) = Ok (jsonify (message_body "Signup successful") 201)
      /\ existsb (has_email email) (users (tables w)) = false
      /\ tables (fst (signup data w))
         = set_users (tables w)
             (users (tables w)
              ++ [mkUser (users_id_seq (seqs w)) name email
                         (hash_password (hd "" (salts w)) password) false])).
Proof.
  intros Hn He Hp.
  unfold signup, generate_password_hash, sql_insert_user.
  rewrite Hn, He, Hp.
  destruct (negb _); [run; unchanged_or_done|].
  destruct w as [t s q o url f sl].
  destruct (truthy_str url) eqn:Hurl;
    destruct sl as [|salt sl]; run; rewrite Hurl; try unchanged_or_done;
    follow_schedule; try unchanged_or_done;
    destruct (existsb (has_email email) (users t)) eqn:Hdup;
    follow_schedule; unchanged_or_done.
Qed.

(** [POST /admin/product] under every schedule of failures. *)
Lemma create_product_outcomes (data : NewProduct) (w : World) :
  (snd (manage_product (ProductPOST data) w)
   <> Ok (jsonify (message_body "Product created") 201)
   /\ tables (fst (manage_product (ProductPOST data) w)) = tables w)
  \/ (exists name category price image_url,
        np_name data = Some name /\ np_category data = Some category
        /\ np_price data = Some price /\ np_image_url data = Some image_url
        /\ snd (manage_product (ProductPOST data) w)
           = Ok (jsonify (message_body "Product created") 201)
        /\ tables (fst (manage_product (ProductPOST data) w))
           = set_products (tables w)
               (products (tables w)
                ++ [mkProduct (products_id_seq (seqs w)) name category price
                              image_url])).
Proof.
  unfold manage_product, sql_insert_product.
  destruct w as [t s q o url f sl].
  destruct (truthy_str url) eqn:Hurl; run; rewrite Hurl;
    [|unchanged_or_done].
  destruct (np_name data) as [name|];
    destruct (np_category data) as [category|];
    destruct (np_price data) as [price|];
    destruct (np_image_url data) as [image_url|];
    follow_schedule;
    first [ left; split; [discriminate | reflexivity]
          | right; exists name, category, price, image_url;
            repeat split; reflexivity ].
Qed.

(** [DELETE /admin/product] under every schedule of failures. *)
Lemma delete_product_outcomes (id : option string) (w : World) :
  (snd (manage_product (ProductDELETE id) w)
   <> Ok (jsonify (message_body "Product deleted") 200)
   /\ tables (fst (manage_product (ProductDELETE id) w)) = tables w)
  \/ (snd (manage_product (ProductDELETE id) w)
      = Ok (jsonify (message_body "Product deleted") 200)
      /\ match id with
         | Some v =>
             exists n,
               int4in v = Some n
               /\ tables (fst (manage_product (ProductDELETE id) w))
                  = set_products (tables w)
                      (filter (fun p => negb (p_id p =? n))
                              (products (tables w)))
         | None => tables (fst (manage_product (ProductDELETE id) w)) = tables w
         end).
Proof.
  unfold manage_product, sql_delete_product.
  destruct w as [t s q o url f sl].
  destruct (truthy_str url) eqn:Hurl; run; rewrite Hurl;
    [|unchanged_or_done].
  destruct id as [v|]; [destruct (int4in v) as [n|] eqn:Hint|];
    follow_schedule;
    first [ left; split; [discriminate | reflexivity]
          | right; split; [reflexivity|]; exists n; split; reflexivity
          | right; split; reflexivity ].
Qed.

(** [PUT /admin/orders] under every schedule of failures. *)
Lemma update_order_outcomes (data : OrderUpdate) (w : World) :
  (snd (manage_orders (OrdersPUT data) w)
   <> Ok (jsonify (message_body "Order updated") 200)
   /\ tables (fst (manage_orders (OrdersPUT data) w)) = tables w)
  \/ (exists st id,
        ou_status data = Some st /\ ou_order_id data = Some id
        /\ snd (manage_orders (OrdersPUT data) w)
           = Ok (jsonify (message_body "Order updated") 200)
        /\ tables (fst (manage_orders (OrdersPUT data) w))
           = set_orders (tables w)
               (map (fun o => if o_id o =? id then set_status o st else o)
                    (orders (tables w)))).
Proof.
  unfold manage_orders, sql_update_order_status.
  destruct w as [t s q o url f sl].
  destruct (truthy_str url) eqn:Hurl; run; rewrite Hurl;
    [|unchanged_or_done].
  destruct (ou_status data) as [st|]; destruct (ou_order_id data) as [id|];
    follow_schedule;
    first [ left; split; [discriminate | reflexivity]
          | right; exists st, id; repeat split; reflexivity ].
Qed.

Lemma filter_keeps_all {A} (f : A -> bool) (l : list A) :
  (forall x, In x l -> f x = true) -> filter f l = l.
Proof.
  induction l as [|a l IH]; simpl; intros Hall; [reflexivity|].
  rewrite (Hall a) by now left.
  f_equal. apply IH. intros x Hx. apply Hall. now right.
Qed.

Lemma map_keeps_all {A} (g : A -> A) (l : list A) :
  (forall x, In x l -> g x = x) -> map g l = l.
Proof.
  induction l as [|a l IH]; simpl; intros Hall; [reflexivity|].
  rewrite (Hall a) by now left.
  f_equal. apply IH. intros x Hx. apply Hall. now right.
Qed.

Lemma signup_rejects (data : SignupReq) (w : World) :
  su_name data = None \/ su_email data = None \/ su_password data = None ->
  signup data w = (w, Ok (jsonify (error_body "All fields required") 400)).
Proof.
  intros Hmiss. unfold signup.
  assert (Hguard : truthy_str (su_name data) && truthy_str (su_email data)
                   && truthy_str (su_password data) = false).
  { destruct Hmiss as [H | [H | H]]; rewrite H; simpl.
    - reflexivity.
    - now rewrite andb_false_r.
    - now rewrite andb_false_r. }
  now rewrite Hguard.
Qed.

Lemma add_to_cart_rejects (data : AddToCartReq) (w : World) :
  ac_user_id data = None \/ ac_product_id data = None ->
  add_to_cart data w
  = (w, Ok (jsonify (error_body "user_id and product_id required") 400)).
Proof.
  intros Hmiss. unfold add_to_cart.
  assert (Hguard : negb (truthy_int (ac_user_id data))
                   || negb (truthy_int (ac_product_id data)) = true).
  { destruct Hmiss as [H | H]; rewrite H; simpl.
    - reflexivity.
    - now rewrite orb_true_r. }
  now rewrite Hguard.
Qed.

(** X4.  Under every schedule of failures, [add_to_cart] is all or
    nothing: unless it answers its 200, the committed tables are as
    before; and in every case it changes no table but the cart. *)
Theorem add_to_cart_all_or_nothing (data : AddToCartReq) (w : World) :
  (snd (add_to_cart data w)
   <> Ok (jsonify (message_body "Product added to cart") 200) ->
   tables (fst (add_to_cart data w)) = tables w)
  /\ users (tables (fst (add_to_cart data w))) = users (tables w)
  /\ products (tables (fst (add_to_cart data w))) = products (tables w)
  /\ orders (tables (fst (add_to_cart data w))) = orders (tables w).
Proof.
  destruct (ac_user_id data) as [u|] eqn:Hu;
    [destruct (ac_product_id data) as [p|] eqn:Hp|].
  - destruct (add_to_cart_outcomes data u p w Hu Hp)
      as [(Hno & Hsame & _) | (Hyes & Hnew & _)].
    + rewrite Hsame. repeat split.
    + rewrite Hnew. split; [intros Hne; contradiction | repeat split].
  - rewrite add_to_cart_rejects by (now right). repeat split.
  - rewrite add_to_cart_rejects by (now left). repeat split.
Qed.

(** X5.  Under every schedule of failures, [signup] is all or nothing:
    unless it answers its 201 the committed tables are as before; it
    changes no table but the users; and when it answers 201, no user had
    the email and exactly one user row was added, with a generated id, the
    given name and email, the hash of the password (computed with
    the salt drawn) as its password, and no admin right. *)
Theorem signup_all_or_nothing (data : SignupReq) (w : World) :
  (snd (signup data w) <> Ok (jsonify (message_body "Signup successful") 201) ->
   tables (fst (signup data w)) = tables w)
  /\ products (tables (fst (signup data w))) = products (tables w)
  /\ cart (tables (fst (signup data w))) = cart (tables w)
  /\ orders (tables (fst (signup data w))) = orders (tables w)
  /\ (snd (signup data w) = Ok (jsonify (message_body "Signup successful") 201) ->
      exists name email password,
        su_name data = Some name /\ su_email data = Some email
        /\ su_password data = Some password
        /\ (forall u, In u (users (tables w)) -> u_email u <> email)
        /\ users (tables (fst (signup data w)))
           = (users (tables w)
              ++ [mkUser (users_id_seq (seqs w)) name email
                         (hash_password (hd "" (salts w)) password) false])%list).
Proof.
  clear verify_password int4in.
  destruct (su_name data) as [name|] eqn:Hn;
    [destruct (su_email data) as [email|] eqn:He;
     [destruct (su_password data) as [password|] eqn:Hp|]|].
  - destruct (signup_outcomes data name email password w Hn He Hp)
      as [(Hno & Hsame) | (Hyes & Hfresh & Hnew)].
    + rewrite Hsame. repeat split. intros Hyes. contradiction.
    + rewrite Hnew. split; [intros Hne; contradiction|].
      repeat split. intros _. exists name, email, password.
      repeat split.
      intros u Hin Heq.
      assert (Hex : existsb (has_email email) (users (tables w)) = true).
      { apply existsb_exists. exists u. split; [exact Hin|].
        unfold has_email. now apply String.eqb_eq. }
      congruence.
  - rewrite signup_rejects by tauto. repeat split. discriminate.
  - rewrite signup_rejects by tauto. repeat split. discriminate.
  - rewrite signup_rejects by tauto. repeat split. discriminate.
Qed.

(** X6.  Under every schedule of failures, creating a product is all or
    nothing: unless the answer is the 201, the committed tables are as
    before; no table but the products changes; and with the 201 all four
    keys were in the body and exactly one product row, with a generated id
    and the four values, was added. *)
Theorem create_product_all_or_nothing (data : NewProduct) (w : World) :
  let out := manage_product (ProductPOST data) w in
  (snd out <> Ok (jsonify (message_body "Product created") 201) ->
   tables (fst out) = tables w)
  /\ users (tables (fst out)) = users (tables w)
  /\ cart (tables (fst out)) = cart (tables w)
  /\ orders (tables (fst out)) = orders (tables w)
  /\ (snd out = Ok (jsonify (message_body "Product created") 201) ->
      exists name category price image_url,
        np_name data = Some name /\ np_category data = Some category
        /\ np_price data = Some price /\ np_image_url data = Some image_url
        /\ products (tables (fst out))
           = (products (tables w)
              ++ [mkProduct (products_id_seq (seqs w)) name category price
                            image_url])%list).
Proof.
  cbv zeta.
  destruct (create_product_outcomes data w)
    as [(Hno & Hsame) | (n & c & pr & img & Hn & Hc & Hp & Hi & Hyes & Hnew)].
  - rewrite Hsame. repeat split. intros Hyes. contradiction.
  - rewrite Hnew. split; [intros Hne; contradiction|].
    repeat split. intros _. exists n, c, pr, img. repeat split; assumption.
Qed.

(** X7.  Under every schedule of failures, deleting a product is all or
    nothing: unless the answer is the 200, the committed tables are as
    before; users, cart and orders never change (a cart row or an order of
    the product stays); and with the 200 the products left are those whose
    id is not the one given, so that an id no product has leaves the
    products as they were. *)
Theorem delete_product_all_or_nothing (v : string) (w : World) :
  let out := manage_product (ProductDELETE (Some v)) w in
  (snd out <> Ok (jsonify (message_body "Product deleted") 200) ->
   tables (fst out) = tables w)
  /\ users (tables (fst out)) = users (tables w)
  /\ cart (tables (fst out)) = cart (tables w)
  /\ orders (tables (fst out)) = orders (tables w)
  /\ (snd out = Ok (jsonify (message_body "Product deleted") 200) ->
      exists n,
        int4in v = Some n
        /\ (forall p, In p (products (tables (fst out))) <->
                      In p (products (tables w)) /\ p_id p <> n)
        /\ ((forall p, In p (products (tables w)) -> p_id p <> n) ->
            products (tables (fst out)) = products (tables w))).
Proof.
  clear hash_password verify_password.
  cbv zeta.
  destruct (delete_product_outcomes (Some v) w)
    as [(Hno & Hsame) | (Hyes & n & Hint & Hnew)].
  - rewrite Hsame. repeat split. intros Hyes. contradiction.
  - rewrite Hnew. split; [intros Hne; contradiction|].
    repeat split. intros _. exists n. split; [exact Hint|]. simpl. split.
    + intros p. rewrite filter_In, negb_true_iff, Z.eqb_neq. tauto.
    + intros Hnone. apply filter_keeps_all. intros p Hp.
      apply negb_true_iff, Z.eqb_neq. now apply Hnone.
Qed.

(** X8.  Under every schedule of failures, the update of an order status
    is all or nothing: unless the answer is the 200, the committed tables
    are as before; users, products and cart never change; and with the 200
    both keys were in the body, every order with the given id has the
    given status, every other order is as it was, and no order is added or
    removed (an id no order has changes nothing). *)
Theorem update_order_all_or_nothing (data : OrderUpdate) (w : World) :
  let out := manage_orders (OrdersPUT data) w in
  (snd out <> Ok (jsonify (message_body "Order updated") 200) ->
   tables (fst out) = tables w)
  /\ users (tables (fst out)) = users (tables w)
  /\ products (tables (fst out)) = products (tables w)
  /\ cart (tables (fst out)) = cart (tables w)
  /\ (snd out = Ok (jsonify (message_body "Order updated") 200) ->
      exists st id,
        ou_status data = Some st /\ ou_order_id data = Some id
        /\ orders (tables (fst out))
           = map (fun o => if o_id o =? id then set_status o st else o)
                 (orders (tables w))
        /\ List.length (orders (tables (fst out)))
           = List.length (orders (tables w))
        /\ ((forall o, In o (orders (tables w)) -> o_id o <> id) ->
            orders (tables (fst out)) = orders (tables w))).
Proof.
  cbv zeta.
  destruct (update_order_outcomes data w)
    as [(Hno & Hsame) | (st & id & Hst & Hid & Hyes & Hnew)].
  - rewrite Hsame. repeat split. intros Hyes. contradiction.
  - rewrite Hnew. split; [intros Hne; contradiction|].
    repeat split. intros _. exists st, id. simpl.
    split; [exact Hst|]. split; [exact Hid|]. split; [reflexivity|].
    split; [apply length_map|].
    intros Hnone. apply map_keeps_all. intros o Ho.
    destruct (Z.eqb_spec (o_id o) id) as [Heq|Hne]; [|reflexivity].
    exfalso. now apply (Hnone o).
Qed.

(** ** Invariants of the cart *)

Lemma map_set_quantity_ids (id q : Z) (rows : list CartItem) :
  map c_id (map (fun c => if c_id c =? id then set_quantity c q else c) rows)
  = map c_id rows.
Proof.
  rewrite map_map. apply map_ext. intros c.
  destruct (c_id c =? id); reflexivity.
Qed.

Lemma fetchone_none {A} (l : list A) : fetchone l = None -> l = [].
Proof.
  destruct l; [reflexivity | discriminate].
Qed.

Lemma cart_after_add_unique_pairs (u p q id : Z) (rows : list CartItem) :
  cart_unique_pairs rows ->
  cart_unique_pairs (cart_after_add u p q id rows).
Proof.
  intros Huniq u' p'. unfold cart_after_add.
  destruct (fetchone (filter (cart_key u p) rows)) as [e|] eqn:Hsel.
  - rewrite filter_map_set_quantity, length_map. apply Huniq.
  - apply fetchone_none in Hsel.
    rewrite filter_app, length_app. simpl.
    destruct (cart_key u' p' (mkCartItem id u p q)) eqn:Hkey; simpl.
    + unfold cart_key in Hkey. simpl in Hkey.
      apply andb_true_iff in Hkey. destruct Hkey as [Hu' Hp'].
      apply Z.eqb_eq in Hu', Hp'. subst u' p'. now rewrite Hsel.
    + rewrite Nat.add_0_r. apply Huniq.
Qed.

Lemma cart_after_add_ids_fresh (u p q next : Z) (rows : list CartItem) :
  cart_ids_fresh next rows ->
  cart_ids_fresh
    (match fetchone (filter (cart_key u p) rows) with
     | Some _ => next
     | None => next + 1
     end)
    (cart_after_add u p q next rows).
Proof.
  intros [Hnd Hlt]. unfold cart_after_add, cart_ids_fresh.
  destruct (fetchone (filter (cart_key u p) rows)) as [e|].
  - rewrite map_set_quantity_ids. split; [exact Hnd|].
    apply Forall_map. eapply Forall_impl; [|exact Hlt].
    intros c Hc. destruct (c_id c =? c_id e); exact Hc.
  - split.
    + rewrite map_app. simpl. apply NoDup_app; [exact Hnd | | ].
      * constructor; [intros [] | constructor].
      * intros x Hin [Hx | []]. subst x.
        apply in_map_iff in Hin. destruct Hin as (c & Hid & Hc).
        rewrite Forall_forall in Hlt. specialize (Hlt c Hc). lia.
    + apply Forall_app. split.
      * eapply Forall_impl; [|exact Hlt]. intros c Hc. simpl in Hc. lia.
      * constructor; [simpl; lia | constructor].
Qed.

(** X9.  [add_to_cart] keeps the cart at one row at most per pair of a
    user and a product: when the committed cart has that property before a
    call, it has it after, whatever the request and the failures of the
    store. *)
Theorem add_to_cart_keeps_unique_pairs (data : AddToCartReq) (w : World) :
  cart_unique_pairs (cart (tables w)) ->
  cart_unique_pairs (cart (tables (fst (add_to_cart data w)))).
Proof.
  intros Huniq.
  destruct (ac_user_id data) as [u|] eqn:Hu;
    [destruct (ac_product_id data) as [p|] eqn:Hp|].
  - destruct (add_to_cart_outcomes data u p w Hu Hp)
      as [(_ & Hsame & _) | (_ & Hnew & _)].
    + now rewrite Hsame.
    + rewrite Hnew. simpl. now apply cart_after_add_unique_pairs.
  - now rewrite add_to_cart_rejects by (now right).
  - now rewrite add_to_cart_rejects by (now left).
Qed.

(** X10.  [add_to_cart] keeps the ids of the cart distinct and below the
    next value of the sequence, whatever the request and the failures of
    the store: a row it inserts never takes the id of a row there is. *)
Theorem add_to_cart_keeps_ids_fresh (data : AddToCartReq) (w : World) :
  cart_ids_fresh (cart_id_seq (seqs w)) (cart (tables w)) ->
  cart_ids_fresh (cart_id_seq (seqs (fst (add_to_cart data w))))
                 (cart (tables (fst (add_to_cart data w)))).
Proof.
  intros Hfresh.
  assert (Hmono : forall next next' rows,
            next <= next' -> cart_ids_fresh next rows ->
            cart_ids_fresh next' rows).
  { intros next next' rows Hle [Hnd Hlt]. split; [exact Hnd|].
    eapply Forall_impl; [|exact Hlt]. intros c Hc. simpl in Hc. lia. }
  destruct (ac_user_id data) as [u|] eqn:Hu;
    [destruct (ac_product_id data) as [p|] eqn:Hp|].
  - destruct (add_to_cart_outcomes data u p w Hu Hp)
      as [(_ & Hsame & Hle) | (_ & Hnew & Hseq)].
    + rewrite Hsame. now apply (Hmono _ _ _ Hle).
    + rewrite Hnew, Hseq. simpl. now apply cart_after_add_ids_fresh.
  - now rewrite add_to_cart_rejects by (now right).
  - now rewrite add_to_cart_rejects by (now left).
Qed.

(** ** Accounts on a store that raises nothing *)

Lemma truthy_str_some (o : option string) :
  truthy_str o = true -> exists s, o = Some s.
Proof.
  destruct o as [s|]; [now exists s | discriminate].
Qed.

Lemma existsb_has_email_false (email : string) (l : list User) :
  (forall u, In u l -> u_email u <> email) ->
  existsb (has_email email) l = false /\ filter (has_email email) l = [].
Proof.
  induction l as [|a l IH]; simpl; intros Hno; [now split|].
  unfold has_email at 1 3.
  destruct (String.eqb_spec (u_email a) email) as [Heq|Hne].
  - exfalso. apply (Hno a); [now left | exact Heq].
  - apply IH. intros u Hu. apply Hno. now right.
Qed.

(** What [signup] does for an email no user has, when the store raises
    nothing. *)
Lemma signup_run (data : SignupReq) (name email password : string) (w : World) :
  healthy w ->
  su_name data = Some name -> su_email data = Some email ->
  su_password data = Some password ->
  truthy_str (su_name data) = true -> truthy_str (su_email data) = true ->
  truthy_str (su_password data) = true ->
  (forall u, In u (users (tables w)) -> u_email u <> email) ->
  signup data w
  = (mkWorld
       (set_users (tables w)
          (users (tables w)
           ++ [mkUser (users_id_seq (seqs w)) name email
                      (hash_password (hd "" (salts w)) password) false]))
       None (bump_users (seqs w)) (stdout w) (database_url w) []
       (tl (salts w)),
     Ok (jsonify (message_body "Signup successful") 201)).
Proof.
  intros [Hurl Hf] Hn He Hp Htn Hte Htp Hfresh.
  destruct (existsb_has_email_false email _ Hfresh) as [Hex _].
  unfold signup. rewrite Htn, Hte, Htp, Hn, He, Hp.
  unfold generate_password_hash, sql_insert_user.
  destruct w as [t s q o url f sl]. simpl in Hurl, Hf, Hex. subst f.
  destruct sl as [|salt sl]; run; rewrite Hurl; run; rewrite Hex;
    reflexivity.
Qed.

(** X11.  On a store that raises nothing, a signup with name, email and
    password present and an email no user has answers 201, and a login
    with the same email and password then answers 200 with the id
    generated for the new user and the name given, provided the hash the
    signup stored has the form method$salt$hash and verifies the
    password. *)
Theorem signup_then_login (data : SignupReq) (name email password : string)
  (w : World) :
  healthy w ->
  su_name data = Some name -> su_email data = Some email ->
  su_password data = Some password ->
  truthy_str (su_name data) = true -> truthy_str (su_email data) = true ->
  truthy_str (su_password data) = true ->
  (forall u, In u (users (tables w)) -> u_email u <> email) ->
  (count_dollar (hash_password (hd "" (salts w)) password) <? 2)%nat = false ->
  verify_password (hash_password (hd "" (salts w)) password) password
  = Ok true ->
  snd (signup data w) = Ok (jsonify (message_body "Signup successful") 201)
  /\ snd (login (mkLoginReq (Some email) (Some password)) (fst (signup data w)))
     = Ok (jsonify (JDict [("user_id", JNum (users_id_seq (seqs w)));
                           ("name", JStr name);
                           ("message", JStr "Login successful")]) 200).
Proof.
  intros Hw Hn He Hp Htn Hte Htp Hfresh Hform Hver.
  rewrite (signup_run data name email password w Hw Hn He Hp Htn Hte Htp Hfresh).
  split; [reflexivity|]. cbn [fst].
  destruct (existsb_has_email_false email _ Hfresh) as [_ Hnone].
  destruct Hw as [Hurl Hf].
  rewrite He in Hte. rewrite Hp in Htp.
  unfold login. cbn [li_email li_password]. rewrite Hte, Htp.
  unfold sql_select_user, users_where_email.
  destruct w as [t s q o url f sl]. simpl in Hurl, Hnone, Hform, Hver |- *.
  run. rewrite Hurl. run. cbn [users set_users].
  rewrite filter_app, Hnone. cbn [app filter].
  unfold has_email at 1. cbn [u_email]. rewrite String.eqb_refl.
  cbn [map]. run. unfold check_password_hash. cbn [u_password].
  rewrite Hform. run. rewrite Hver. reflexivity.
Qed.

(** X12.  On a store that raises nothing, a login with email and password
    present, for the email of a user whose stored password verifies the
    one given, answers 200 with the id and the name of that user. *)
Theorem login_success (data : LoginReq) (w : World) (u : User) :
  healthy w ->
  truthy_str (li_email data) = true ->
  truthy_str (li_password data) = true ->
  fetchone (users_where_email (li_email data) (tables w)) = Some u ->
  (forall w0, check_password_hash (u_password u) (li_password data) w0
              = (w0, Ok true)) ->
  snd (login data w)
  = Ok (jsonify (JDict [("user_id", JNum (u_id u));
                        ("name", JStr (u_name u));
                        ("message", JStr "Login successful")]) 200).
Proof.
  intros [Hurl Hf] Hte Htp Hfound Hok.
  unfold login. rewrite Hte, Htp. unfold sql_select_user.
  destruct w as [t s q o url f sl]. simpl in Hurl, Hf, Hfound. subst f.
  run. rewrite Hurl. run.
  destruct (users_where_email (li_email data) t) as [|u0 l];
    [discriminate|].
  simpl in Hfound. inversion Hfound; subst u0. cbn [map]. run.
  rewrite Hok. reflexivity.
Qed.

(** ** The catalogue *)

(** X13.  On a store that raises nothing, the product list answers 200
    with all the products, in the order of the table, when no category is
    given or the category is empty, and with the products of the category,
    in the order of the table, when one is given. *)
Theorem get_products_filter (category : option string) (w : World) :
  healthy w ->
  snd (get_products category w)
  = Ok (jsonify
          (JList (map product_json
                    (match category with
                     | Some c =>
                         if (c =? "")%string then products (tables w)
                         else filter (fun p => (p_category p =? c)%string)
                                     (products (tables w))
                     | None => products (tables w)
                     end)))
          200).
Proof.
  intros [Hurl Hf].
  unfold get_products, sql_select_products_by_category, sql_select_products.
  destruct w as [t s q o url f sl]. simpl in Hurl, Hf. subst f.
  destruct category as [c|]; simpl truthy_str;
    [destruct (c =? "")%string|]; run; rewrite Hurl; reflexivity.
Qed.

(** ** The cart on the edges *)

(** X14.  On a store that raises nothing, a cart listing for a user_id
    the store cannot read as an integer answers nothing: the error of the
    store leaves the handler, which catches no exception; the connection
    is closed and the tables are as before. *)
Theorem get_cart_bad_user_id (v : string) (w : World) :
  healthy w ->
  truthy_str (Some v) = true ->
  int4in v = None ->
  snd (get_cart (Some v) w) = Raise invalid_integer
  /\ session (fst (get_cart (Some v) w)) = None
  /\ tables (fst (get_cart (Some v) w)) = tables w.
Proof.
  intros [Hurl Hf] Htruthy Hint.
  unfold get_cart. rewrite Htruthy. unfold sql_select_cart.
  destruct w as [t s q o url f sl]. simpl in Hurl, Hf. subst f.
  run. rewrite Hurl. run. rewrite Hint. repeat split.
Qed.

(** X15.  When the store fails during [add_to_cart], at the SELECT, at
    the UPDATE or INSERT, or at the COMMIT, and the rollback goes through,
    the answer is 500 with the fixed text "Error adding to cart"; the
    message of the exception is written to the standard output and is not
    in the answer; the tables are as before and the connection is
    closed. *)
Theorem add_to_cart_storage_error (data : AddToCartReq) (w : World)
  (k : nat) (e : exn) (rest : list (option exn)) :
  truthy_str (database_url w) = true ->
  truthy_int (ac_user_id data) = true ->
  truthy_int (ac_product_id data) = true ->
  (k <= 2)%nat ->
  faults w = (None :: repeat None k ++ Some e :: None :: rest)%list ->
  snd (add_to_cart data w)
  = Ok (jsonify (error_body "Error adding to cart") 500)
  /\ stdout (fst (add_to_cart data w))
     = (stdout w ++ [("Error: " ++ str e)%string])%list
  /\ tables (fst (add_to_cart data w)) = tables w
  /\ session (fst (add_to_cart data w)) = None.
Proof.
  intros Hurl Htu Htp Hk Hf.
  unfold add_to_cart. rewrite Htu, Htp.
  unfold sql_select_cart_item, sql_update_cart_quantity, sql_insert_cart,
    cart_where.
  destruct (ac_user_id data) as [u|]; [|discriminate].
  destruct (ac_product_id data) as [p|]; [|discriminate].
  destruct w as [t s q o url f sl]. simpl in Hurl, Hf. subst f.
  destruct k as [|[|[|k]]]; [| | |lia]; cbn [repeat app];
    run; rewrite Hurl; run;
    try (destruct (filter (cart_key u p) (cart t)) as [|c l]; cbn [map]; run);
    repeat split.
Qed.

(** What [get_cart] answers when the store raises nothing. *)
Lemma get_cart_run (v : string) (uid : Z) (w : World) :
  healthy w -> truthy_str (Some v) = true -> int4in v = Some uid ->
  snd (get_cart (Some v) w)
  = Ok (jsonify (JList (map cart_row_json (cart_join_products uid (tables w))))
                200).
Proof.
  intros [Hurl Hf] Htruthy Hint.
  unfold get_cart. rewrite Htruthy. unfold sql_select_cart.
  destruct w as [t s q o url f sl]. simpl in Hurl, Hf. subst f.
  run. rewrite Hurl. run. rewrite Hint. reflexivity.
Qed.

Lemma fetchone_filter_in {A} (f : A -> bool) (l : list A) (e : A) :
  fetchone (filter f l) = Some e -> In e l /\ f e = true.
Proof.
  intros Hsel. apply filter_In.
  destruct (filter f l) as [|x l']; [discriminate|].
  simpl in Hsel. inversion Hsel. now left.
Qed.

(** X16.  On a store that raises nothing, after [add_to_cart] for user u
    and a product p of the catalogue, the cart listing of u has a row for
    p with the name, price and image of the product, and with the quantity
    the selected row had before (0 when there was none) plus the quantity
    given (1 when the request has none). *)
Theorem add_to_cart_then_get_cart (data : AddToCartReq) (u p : Z)
  (v : string) (prod : Product) (w : World) :
  healthy w ->
  ac_user_id data = Some u -> ac_product_id data = Some p ->
  truthy_int (ac_user_id data) = true ->
  truthy_int (ac_product_id data) = true ->
  truthy_str (Some v) = true -> int4in v = Some u ->
  In prod (products (tables w)) -> p_id prod = p ->
  exists rows c,
    snd (get_cart (Some v) (fst (add_to_cart data w)))
    = Ok (jsonify (JList (map cart_row_json rows)) 200)
    /\ In (c, prod) rows
    /\ c_user_id c = u /\ c_product_id c = p
    /\ c_quantity c
       = match fetchone (filter (cart_key u p) (cart (tables w))) with
         | Some e => c_quantity e
         | None => 0
         end + quantity_of data.
Proof.
  intros Hw Hu Hp Htu Htp Htv Hint Hprod Hpid.
  rewrite (add_to_cart_run data u p w Hw Hu Hp Htu Htp). cbn [fst].
  destruct (fetchone (filter (cart_key u p) (cart (tables w))))
    as [e|] eqn:Hsel.
  - set (w1 := mkWorld _ _ _ _ _ _ _).
    assert (Hw1 : healthy w1)
      by (destruct Hw; split; [assumption | reflexivity]).
    exists (cart_join_products u (tables w1)),
           (set_quantity e (c_quantity e + quantity_of data)).
    apply fetchone_filter_in in Hsel. destruct Hsel as [Hin Hkey].
    unfold cart_key in Hkey. apply andb_true_iff in Hkey.
    destruct Hkey as [Hku Hkp]. apply Z.eqb_eq in Hku, Hkp.
    split; [now apply get_cart_run|].
    split; [|now repeat split].
    unfold cart_join_products. apply in_inner_join.
    split; [|split; [exact Hprod | simpl; rewrite Hkp, Hpid; apply Z.eqb_refl]].
    apply filter_In. split; [|simpl; rewrite Hku; apply Z.eqb_refl].
    subst w1. cbn [tables cart set_cart]. apply in_map_iff.
    exists e. split; [now rewrite Z.eqb_refl | exact Hin].
  - set (w1 := mkWorld _ _ _ _ _ _ _).
    assert (Hw1 : healthy w1)
      by (destruct Hw; split; [assumption | reflexivity]).
    exists (cart_join_products u (tables w1)),
           (mkCartItem (cart_id_seq (seqs w)) u p (quantity_of data)).
    split; [now apply get_cart_run|].
    split; [|now repeat split].
    unfold cart_join_products. apply in_inner_join.
    split; [|split; [exact Hprod | simpl; rewrite Hpid; apply Z.eqb_refl]].
    apply filter_In. split; [|simpl; apply Z.eqb_refl].
    subst w1. cbn [tables cart set_cart]. apply in_or_app. right. now left.
Qed.

(** ** The admin panel on a store that raises nothing *)

(** What [admin_stats] answers when the store raises nothing: the revenue
    as the string of the sum, the two counts as numbers. *)
Lemma admin_stats_run (w : World) :
  healthy w ->
  snd (admin_stats w)
  = Ok (jsonify
          (JDict [("revenue",
                   json_of_decimal
                     (fold_right Z.add 0
                        (map o_total_amount (orders (tables w)))));
                  ("orders", JNum (Z.of_nat (List.length (orders (tables w)))));
                  ("products", JNum (Z.of_nat (List.length (products (tables w)))))])
          200).
Proof.
  intros [Hurl Hf].
  unfold admin_stats, sql_revenue, sql_count_orders, sql_count_products,
    sql_count.
  destruct w as [t s q o url f sl]. simpl in Hurl, Hf. subst f.
  run. rewrite Hurl. run. rewrite coalesce_sum. reflexivity.
Qed.

Lemma create_product_run (data : NewProduct) (name category : string)
  (price : Z) (image_url : string) (w : World) :
  healthy w ->
  np_name data = Some name -> np_category data = Some category ->
  np_price data = Some price -> np_image_url data = Some image_url ->
  manage_product (ProductPOST data) w
  = (mkWorld
       (set_products (tables w)
          (products (tables w)
           ++ [mkProduct (products_id_seq (seqs w)) name category price
                         image_url]))
       None (bump_products (seqs w)) (stdout w) (database_url w) [] (salts w),
     Ok (jsonify (message_body "Product created") 201)).
Proof.
  intros [Hurl Hf] Hn Hc Hp Hi.
  unfold manage_product, sql_insert_product. rewrite Hn, Hc, Hp, Hi.
  destruct w as [t s q o url f sl]. simpl in Hurl, Hf. subst f.
  run. rewrite Hurl. reflexivity.
Qed.

Lemma delete_product_run (v : string) (n : Z) (w : World) :
  healthy w -> int4in v = Some n ->
  manage_product (ProductDELETE (Some v)) w
  = (mkWorld
       (set_products (tables w)
          (filter (fun p => negb (p_id p =? n)) (products (tables w))))
       None (seqs w) (stdout w) (database_url w) [] (salts w),
     Ok (jsonify (message_body "Product deleted") 200)).
Proof.
  intros [Hurl Hf] Hint.
  unfold manage_product, sql_delete_product.
  destruct w as [t s q o url f sl]. simpl in Hurl, Hf. subst f.
  run. rewrite Hurl. run. rewrite Hint. reflexivity.
Qed.

Lemma update_order_run (data : OrderUpdate) (st : string) (id : Z) (w : World) :
  healthy w -> ou_status data = Some st -> ou_order_id data = Some id ->
  manage_orders (OrdersPUT data) w
  = (mkWorld
       (set_orders (tables w)
          (map (fun o => if o_id o =? id then set_status o st else o)
               (orders (tables w))))
       None (seqs w) (stdout w) (database_url w) [] (salts w),
     Ok (jsonify (message_body "Order updated") 200)).
Proof.
  intros [Hurl Hf] Hst Hid.
  unfold manage_orders, sql_update_order_status. rewrite Hst, Hid.
  destruct w as [t s q o url f sl]. simpl in Hurl, Hf. subst f.
  run. rewrite Hurl. reflexivity.
Qed.

Lemma list_orders_run (w : World) :
  healthy w ->
  snd (manage_orders OrdersGET w)
  = Ok (jsonify
          (JList (map order_json
                    (order_by_created_at_desc (orders_join_users (tables w)))))
          200).
Proof.
  intros [Hurl Hf].
  unfold manage_orders, sql_select_orders.
  destruct w as [t s q o url f sl]. simpl in Hurl, Hf. subst f.
  run. rewrite Hurl. reflexivity.
Qed.

(** X17.  On a store that raises nothing, a product created with its four
    keys is answered 201, and the statistics then count one product more,
    with the revenue (written as the string of the sum of total_amount)
    and the number of orders as before. *)
Theorem create_product_then_stats (data : NewProduct) (name category : string)
  (price : Z) (image_url : string) (w : World) :
  healthy w ->
  np_name data = Some name -> np_category data = Some category ->
  np_price data = Some price -> np_image_url data = Some image_url ->
  snd (manage_product (ProductPOST data) w)
  = Ok (jsonify (message_body "Product created") 201)
  /\ snd (admin_stats (fst (manage_product (ProductPOST data) w)))
     = Ok (jsonify
             (JDict [("revenue",
                      json_of_decimal
                        (fold_right Z.add 0
                           (map o_total_amount (orders (tables w)))));
                     ("orders",
                      JNum (Z.of_nat (List.length (orders (tables w)))));
                     ("products",
                      JNum (Z.of_nat (List.length (products (tables w))) + 1))])
             200).
Proof.
  intros Hw Hn Hc Hp Hi.
  rewrite (create_product_run data name category price image_url w Hw Hn Hc Hp Hi).
  split; [reflexivity|]. cbn [fst].
  set (w1 := mkWorld _ _ _ _ _ _ _).
  assert (Hw1 : healthy w1)
    by (destruct Hw; split; [assumption | reflexivity]).
  rewrite (admin_stats_run w1 Hw1). subst w1.
  cbn [tables products orders set_products].
  rewrite length_app. cbn [List.length]. rewrite Nat2Z.inj_add. reflexivity.
Qed.

(** X18.  On a store that raises nothing, the deletion of a product
    answers 200 and leaves the cart table as it was; the cart listing of a
    user then shows no row of the deleted product, and every row it shows
    was shown before the deletion. *)
Theorem delete_product_then_get_cart (v s : string) (n uid : Z) (w : World) :
  healthy w ->
  int4in v = Some n ->
  truthy_str (Some s) = true -> int4in s = Some uid ->
  let w1 := fst (manage_product (ProductDELETE (Some v)) w) in
  snd (manage_product (ProductDELETE (Some v)) w)
  = Ok (jsonify (message_body "Product deleted") 200)
  /\ cart (tables w1) = cart (tables w)
  /\ exists rows_before rows,
       snd (get_cart (Some s) w)
       = Ok (jsonify (JList (map cart_row_json rows_before)) 200)
       /\ snd (get_cart (Some s) w1)
          = Ok (jsonify (JList (map cart_row_json rows)) 200)
       /\ (forall c prod, In (c, prod) rows <->
             In (c, prod) rows_before /\ c_product_id c <> n).
Proof.
  intros Hw Hv Hts Hs. cbv zeta.
  rewrite (delete_product_run v n w Hw Hv). cbn [fst snd].
  set (w1 := mkWorld _ _ _ _ _ _ _).
  assert (Hw1 : healthy w1)
    by (destruct Hw; split; [assumption | reflexivity]).
  split; [reflexivity|]. split; [reflexivity|].
  exists (cart_join_products uid (tables w)),
         (cart_join_products uid (tables w1)).
  split; [now apply get_cart_run|]. split; [now apply get_cart_run|].
  intros c prod. unfold cart_join_products. rewrite !in_inner_join.
  subst w1. cbn [tables cart products set_products].
  rewrite !filter_In, negb_true_iff, !Z.eqb_eq, Z.eqb_neq.
  split.
  - intros ((Hc & Hu) & (Hp & Hne) & Hid). repeat split; try assumption.
    now rewrite Hid.
  - intros (((Hc & Hu) & Hp & Hid) & Hne). repeat split; try assumption.
    now rewrite <- Hid.
Qed.

(** X19.  On a store that raises nothing, an update of an order whose
    body lacks the status key, or has it and lacks the order_id key, is
    not answered by the handler: the KeyError leaves it (no exception is
    caught in [manage_orders]); the tables are as before and the
    connection is closed. *)
Theorem update_order_missing_key (data : OrderUpdate) (w : World) :
  healthy w ->
  ou_status data = None \/ ou_order_id data = None ->
  snd (manage_orders (OrdersPUT data) w)
  = Raise (PyException (match ou_status data with
                        | None => "'status'"
                        | Some _ => "'order_id'"
                        end))
  /\ tables (fst (manage_orders (OrdersPUT data) w)) = tables w
  /\ session (fst (manage_orders (OrdersPUT data) w)) = None.
Proof.
  intros [Hurl Hf] Hmiss.
  unfold manage_orders.
  destruct w as [t s q o url f sl]. simpl in Hurl, Hf. subst f.
  destruct (ou_status data) as [st|]; destruct (ou_order_id data) as [id|];
    try (destruct Hmiss; discriminate);
    run; rewrite Hurl; repeat split.
Qed.

(** X20.  On a store that raises nothing, after an update of the status
    of an order, the list of orders shows every order with the given id
    under the new status, and every other order of the list as it was in
    the table. *)
Theorem update_order_then_list (data : OrderUpdate) (st : string) (id : Z)
  (w : World) :
  healthy w ->
  ou_status data = Some st -> ou_order_id data = Some id ->
  snd (manage_orders (OrdersPUT data) w)
  = Ok (jsonify (message_body "Order updated") 200)
  /\ exists rows,
       snd (manage_orders OrdersGET (fst (manage_orders (OrdersPUT data) w)))
       = Ok (jsonify (JList (map order_json rows)) 200)
       /\ (forall o u, In (o, u) rows -> o_id o = id -> o_status o = st)
       /\ (forall o u, In (o, u) rows -> o_id o <> id ->
             In o (orders (tables w))).
Proof.
  intros Hw Hst Hid.
  rewrite (update_order_run data st id w Hw Hst Hid). cbn [fst snd].
  set (w1 := mkWorld _ _ _ _ _ _ _).
  assert (Hw1 : healthy w1)
    by (destruct Hw; split; [assumption | reflexivity]).
  split; [reflexivity|].
  exists (order_by_created_at_desc (orders_join_users (tables w1))).
  split; [now apply list_orders_run|].
  assert (Hin : forall o u,
            In (o, u) (order_by_created_at_desc (orders_join_users (tables w1))) ->
            exists o0, In o0 (orders (tables w))
                       /\ o = if o_id o0 =? id then set_status o0 st else o0).
  { intros o u Hou.
    apply (Permutation_in _ (Permutation_sym (order_by_perm _))) in Hou.
    apply in_inner_join in Hou. destruct Hou as (Ho & _ & _).
    subst w1. cbn [tables orders set_orders] in Ho.
    apply in_map_iff in Ho. destruct Ho as (o0 & Heq & Ho0).
    exists o0. now split. }
  split; intros o u Hou Hcase; destruct (Hin o u Hou) as (o0 & Ho0 & Heq);
    destruct (Z.eqb_spec (o_id o0) id) as [Hy|Hn]; subst o; simpl in *;
    try reflexivity; try contradiction; try assumption.
Qed.

(** X21.  On a store that raises nothing, the creation of a product whose
    body lacks a key is answered 500 with, as its error, the first key
    missing among name, category, price and image_url, in quotes; nothing
    is inserted. *)
Theorem create_product_missing_key (data : NewProduct) (w : World) :
  healthy w ->
  np_name data = None \/ np_category data = None
  \/ np_price data = None \/ np_image_url data = None ->
  snd (manage_product (ProductPOST data) w)
  = Ok (jsonify
          (error_body
             (match np_name data, np_category data, np_price data with
              | None, _, _ => "'name'"
              | Some _, None, _ => "'category'"
              | Some _, Some _, None => "'price'"
              | Some _, Some _, Some _ => "'image_url'"
              end))
          500)
  /\ tables (fst (manage_product (ProductPOST data) w)) = tables w.
Proof.
  intros [Hurl Hf] Hmiss.
  unfold manage_product.
  destruct w as [t s q o url f sl]. simpl in Hurl, Hf. subst f.
  destruct (np_name data) as [name|];
    destruct (np_category data) as [category|];
    destruct (np_price data) as [price|];
    destruct (np_image_url data) as [image_url|];
    try (destruct Hmiss as [H | [H | [H | H]]]; discriminate);
    run; rewrite Hurl; repeat split.
Qed.

(** ** The two logins *)

(** X23.  On a store that raises nothing and for an email and a password
    that are present, [login] and [admin_login] accept the same
    credentials: either the verification of the password raises and the
    same exception leaves both handlers, or both answer, and then [login]
    answers 200 exactly when [admin_login] answers 200 or 403, and 401
    exactly when [admin_login] answers 401. *)
Theorem logins_agree (data : LoginReq) (w : World) :
  healthy w ->
  truthy_str (li_email data) = true ->
  truthy_str (li_password data) = true ->
  (exists e,
     snd (login data w) = Raise e /\ snd (admin_login data w) = Raise e)
  \/ (exists r r',
        snd (login data w) = Ok r /\ snd (admin_login data w) = Ok r'
        /\ (status r = 200 <-> status r' = 200 \/ status r' = 403)
        /\ (status r = 401 <-> status r' = 401)).
Proof.
  intros [Hurl Hf] Hte Htp.
  unfold login, admin_login. rewrite Hte, Htp.
  unfold sql_select_user, sql_select_admin, check_password_hash.
  destruct (li_password data) as [password|]; [|discriminate].
  destruct w as [t s q o url f sl]. simpl in Hurl, Hf. subst f.
  run. rewrite Hurl. run.
  destruct (users_where_email (li_email data) t) as [|u l]; cbn [map]; run.
  - right. do 2 eexists. split; [reflexivity|]. split; [reflexivity|].
    simpl. split; split; intros H;
      first [ discriminate H | destruct H as [H|H]; discriminate H
            | reflexivity ].
  - destruct (count_dollar (u_password u) <? 2)%nat; run;
      [|destruct (verify_password (u_password u) password) as [[|]|e];
        [destruct (u_is_admin u)| |]];
      first
        [ left; eexists; split; reflexivity
        | right; do 2 eexists; (split; [reflexivity|]);
          (split; [reflexivity|]);
          simpl; split; split; intros H;
          first [ discriminate H | destruct H as [H|H]; discriminate H
                | reflexivity | left; reflexivity | right; reflexivity ] ].
Qed.

(** X22.  When the store fails during the [signup] of an email no user
    has, with an error that is no unique violation, at the INSERT or at
    the COMMIT, and the rollback goes through, the answer is 500 with the
    fixed text "Signup failed";
    the message of the exception is written to the standard output and is
    not in the answer; the tables are as before and the connection is
    closed. *)
Theorem signup_storage_error (data : SignupReq) (w : World)
  (k : nat) (msg : string) (rest : list (option exn)) :
  truthy_str (database_url w) = true ->
  truthy_str (su_name data) = true ->
  truthy_str (su_email data) = true ->
  truthy_str (su_password data) = true ->
  (forall u, In u (users (tables w)) -> Some (u_email u) <> su_email data) ->
  (k <= 1)%nat ->
  faults w = (None :: repeat None k ++ Some (PyException msg) :: None :: rest)%list ->
  snd (signup data w) = Ok (jsonify (error_body "Signup failed") 500)
  /\ stdout (fst (signup data w))
     = (stdout w ++ [("Error: " ++ msg)%string])%list
  /\ tables (fst (signup data w)) = tables w
  /\ session (fst (signup data w)) = None.
Proof.
  intros Hurl Hn He Hp Hfresh Hk Hf.
  unfold signup. rewrite Hn, He, Hp.
  unfold generate_password_hash, sql_insert_user.
  destruct (su_name data) as [name|]; [|discriminate].
  destruct (su_email data) as [email|]; [|discriminate].
  destruct (su_password data) as [password|]; [|discriminate].
  assert (Hex : existsb (has_email email) (users (tables w)) = false).
  { apply existsb_has_email_false. intros u Hu Heq.
    apply (Hfresh u Hu). now rewrite Heq. }
  destruct w as [t s q o url f sl]. simpl in Hurl, Hf, Hex. subst f.
  destruct k as [|[|k]]; [| |lia]; cbn [repeat app];
    destruct sl as [|salt sl]; run; rewrite Hurl; run;
    try (rewrite Hex; run); repeat split.
Qed.

End Shop.

(** * The handlers on the example store *)

(** C6 does not hold of [manage_product]: a DELETE whose id the store
    cannot read as an integer, and a POST without the name key, are
    answered 500 with the message of the exception in the body, and
    nothing is written to the standard output. *)
Theorem manage_product_returns_exception_text :
  let out1 := manage_product demo_int4in (ProductDELETE (Some "abc")) demo_world in
  let out2 := manage_product demo_int4in
                (ProductPOST (mkNewProduct None (Some "office") (Some 5) (Some "x.png")))
                demo_world in
  snd out1
  = Ok (mkResponse 500 (JDict [("error", JStr "invalid input syntax for type integer")]))
  /\ stdout (fst out1) = stdout demo_world
  /\ snd out2 = Ok (mkResponse 500 (JDict [("error", JStr "'name'")]))
  /\ stdout (fst out2) = stdout demo_world.
Proof.
  repeat split.
Qed.

(** C8 does not hold of [admin_stats]: the revenue is handed to [jsonify]
    as the store returns it, a decimal, without the [float()] that
    [manage_orders] applies to the same column, and is written as a
    string, "1470" for the orders of the example store and "0" when there
    is no order; the two counts are numbers, and so is the amount of an
    order in the list of orders. *)
Theorem admin_stats_revenue_is_text :
  snd (admin_stats demo_world)
  = Ok (mkResponse 200 (JDict [("revenue", JStr "1470"); ("orders", JNum 3);
                               ("products", JNum 2)]))
  /\ snd (admin_stats demo_world_no_orders)
     = Ok (mkResponse 200 (JDict [("revenue", JStr "0"); ("orders", JNum 0);
                                  ("products", JNum 2)]))
  /\ snd (manage_orders OrdersGET demo_world)
     = Ok (mkResponse 200
             (JList [JDict [("id", JNum 2); ("customer", JStr "Root");
                            ("amount", JNum 120); ("status", JStr "shipped");
                            ("date", JNum 300)];
                     JDict [("id", JNum 3); ("customer", JStr "Ann");
                            ("amount", JNum 450); ("status", JStr "pending");
                            ("date", JNum 200)];
                     JDict [("id", JNum 1); ("customer", JStr "Ann");
                            ("amount", JNum 900); ("status", JStr "pending");
                            ("date", JNum 100)]])).
Proof.
  repeat split.
Qed.

Lemma demo_world_healthy : healthy demo_world.
Proof.
  split; reflexivity.
Defined.

(** Adding product 8 to the cart of user 1, who has no row for it. *)
Lemma add_to_cart_merge_or_insert_witness :
  healthy demo_world
  /\ snd (add_to_cart (mkAddToCartReq (Some 1) (Some 8) None) demo_world)
     = Ok (jsonify (message_body "Product added to cart") 200).
Proof.
  split; [exact demo_world_healthy|].
  apply (add_to_cart_merge_or_insert
           (mkAddToCartReq (Some 1) (Some 8) None) 1 8 demo_world);
    [exact demo_world_healthy | reflexivity | reflexivity
     | reflexivity | reflexivity].
Defined.

(** Signing up again with the email of Ann. *)
Lemma signup_duplicate_email_witness :
  existsb (has_email "ann@example.org") (users (tables demo_world)) = true
  /\ users (tables (fst (signup demo_hash
                           (mkSignupReq (Some "Eve") (Some "ann@example.org")
                                        (Some "pw"))
                           demo_world)))
     = users (tables demo_world).
Proof.
  split; [reflexivity|].
  apply (signup_duplicate_email demo_hash
           (mkSignupReq (Some "Eve") (Some "ann@example.org") (Some "pw"))
           "ann@example.org" demo_world);
    [exact demo_world_healthy | reflexivity | reflexivity | reflexivity
     | reflexivity | reflexivity].
Defined.

(** An unknown email against a wrong password for Ann. *)
Lemma login_failures_indistinguishable_witness :
  snd (login demo_verify
         (mkLoginReq (Some "nobody@example.org") (Some "secret")) demo_world)
  = snd (login demo_verify
           (mkLoginReq (Some "ann@example.org") (Some "guess")) demo_world).
Proof.
  apply (login_failures_indistinguishable demo_verify
           (mkLoginReq (Some "nobody@example.org") (Some "secret"))
           (mkLoginReq (Some "ann@example.org") (Some "guess"))
           demo_world demo_world
           (mkUser 1 "Ann" "ann@example.org" "demo$$secret" false));
    try exact demo_world_healthy; try reflexivity.
  intros u' Hin. simpl in Hin.
  destruct Hin as [Hu | [Hu | []]]; subst u'; simpl; discriminate.
Defined.

(** Root, an admin, logs in to the admin panel. *)
Lemma admin_login_role_check_witness :
  healthy demo_world
  /\ snd (admin_login demo_verify
            (mkLoginReq (Some "root@example.org") (Some "admin")) demo_world)
     = Ok (jsonify (JDict [("admin_id", JNum 2); ("name", JStr "Root");
                           ("token", JStr "admin_secret_token")]) 200).
Proof.
  split; [exact demo_world_healthy|].
  apply (admin_login_role_check demo_verify
           (mkLoginReq (Some "root@example.org") (Some "admin")) demo_world
           (mkUser 2 "Root" "root@example.org" "demo$$admin" true)
           demo_world_healthy eq_refl (fun w0 => eq_refl)).
  reflexivity.
Defined.

(** A signup during which the store goes away. *)
Lemma connection_always_released_witness :
  session demo_world_failing = None
  /\ session (fst (dispatch demo_hash demo_verify demo_int4in
                     (POST_signup (mkSignupReq (Some "Eve")
                                               (Some "eve@example.org")
                                               (Some "pw")))
                     demo_world_failing))
     = None.
Proof.
  split; [reflexivity|].
  apply connection_always_released. reflexivity.
Defined.

(** The admin with no email in the request. *)
Lemma admin_login_missing_inputs_witness :
  healthy demo_world
  /\ snd (admin_login demo_verify (mkLoginReq None (Some "admin")) demo_world)
     = Ok (jsonify (error_body "Invalid credentials") 401).
Proof.
  split; [exact demo_world_healthy|].
  apply (admin_login_missing_inputs demo_verify
           (mkLoginReq None (Some "admin")) demo_world demo_world_healthy).
  left. reflexivity.
Defined.

(** C10 does not hold of [admin_login]: it makes no presence check, so
    with the email of Ann and no password, [check_password_hash] is asked
    to verify [None] and raises; nothing catches the exception, and
    [admin_login] answers nothing, the 401 of its last line least of
    all. *)
Lemma admin_login_missing_password_raises :
  healthy demo_world
  /\ li_password (mkLoginReq (Some "ann@example.org") None) = None
  /\ snd (admin_login demo_verify
            (mkLoginReq (Some "ann@example.org") None) demo_world)
     = Raise (PyException "'NoneType' object has no attribute 'encode'")
  /\ snd (admin_login demo_verify
            (mkLoginReq (Some "ann@example.org") None) demo_world)
     <> Ok (jsonify (error_body "Invalid credentials") 401).
Proof.
  split; [exact demo_world_healthy|].
  split; [reflexivity|]. split; [reflexivity|]. discriminate.
Qed.

(** The orders of the example store. *)
Lemma list_orders_newest_first_witness :
  healthy demo_world
  /\ exists rows,
       snd (manage_orders OrdersGET demo_world)
       = Ok (jsonify (JList (map order_json rows)) 200)
       /\ StronglySorted newer_first rows.
Proof.
  split; [exact demo_world_healthy|].
  destruct (list_orders_newest_first demo_world demo_world_healthy)
    as (rows & Hrun & _ & _ & Hsorted).
  exists rows. split; assumption.
Defined.

(** The cart of user 1, one of whose rows names product 99, which is not
    in the catalogue. *)
Lemma get_cart_inner_join_witness :
  demo_int4in "1" = Some 1
  /\ exists rows,
       snd (get_cart demo_int4in (Some "1") demo_world)
       = Ok (jsonify (JList (map cart_row_json rows)) 200)
       /\ ~ In (mkCartItem 2 1 99 1) (map fst rows).
Proof.
  split; [reflexivity|].
  destruct (get_cart_inner_join demo_int4in "1" 1 demo_world
              demo_world_healthy eq_refl eq_refl)
    as (rows & Hrun & _ & Hdangling).
  exists rows. split; [exact Hrun|].
  apply Hdangling.
  - simpl. right. left. reflexivity.
  - intros p Hp. simpl in Hp.
    destruct Hp as [Hp | [Hp | []]]; subst p; simpl; discriminate.
Defined.

(** * The further properties on the example store *)

(** The cart listing when the store goes away. *)
Lemma read_only_routes_keep_tables_witness :
  tables (fst (dispatch demo_hash demo_verify demo_int4in (GET_cart (Some "1"))
                 demo_world_failing))
  = tables demo_world_failing.
Proof.
  apply read_only_routes_keep_tables. reflexivity.
Defined.

(** A login with an empty email and no password. *)
Lemma presence_check_answers_400_witness :
  exists msg,
    dispatch demo_hash demo_verify demo_int4in
      (POST_login (mkLoginReq (Some "") None)) demo_world
    = (demo_world, Ok (jsonify (error_body msg) 400)).
Proof.
  apply presence_check_answers_400. reflexivity.
Defined.

(** The statistics without a DATABASE_URL. *)
Lemma no_database_url_witness :
  session (fst (dispatch demo_hash demo_verify demo_int4in GET_admin_stats
                  demo_world_no_url))
  = session demo_world_no_url.
Proof.
  apply (no_database_url demo_hash demo_verify demo_int4in GET_admin_stats
           demo_world_no_url);
    [reflexivity | discriminate].
Defined.

(** Adding to the cart when the COMMIT fails. *)
Lemma add_to_cart_all_or_nothing_witness :
  tables (fst (add_to_cart (mkAddToCartReq (Some 1) (Some 8) (Some 2))
                 demo_world_failing_commit))
  = tables demo_world_failing_commit.
Proof.
  apply (add_to_cart_all_or_nothing
           (mkAddToCartReq (Some 1) (Some 8) (Some 2)) demo_world_failing_commit).
  intros H. vm_compute in H. discriminate H.
Defined.

(** Eve signs up. *)
Lemma signup_all_or_nothing_witness :
  exists name email password,
    Some "Eve" = Some name /\ Some "eve@example.org" = Some email
    /\ Some "pw" = Some password
    /\ (forall u, In u (users demo_tables) -> u_email u <> email)
    /\ users (tables (fst (signup demo_hash
                             (mkSignupReq (Some "Eve") (Some "eve@example.org")
                                          (Some "pw"))
                             demo_world)))
       = (users demo_tables
          ++ [mkUser 3 name email (demo_hash "" password) false])%list.
Proof.
  apply (signup_all_or_nothing demo_hash
           (mkSignupReq (Some "Eve") (Some "eve@example.org") (Some "pw"))
           demo_world).
  reflexivity.
Defined.

(** A product without its name. *)
Lemma create_product_all_or_nothing_witness :
  tables (fst (manage_product demo_int4in
                 (ProductPOST (mkNewProduct None (Some "office") (Some 5)
                                            (Some "x.png")))
                 demo_world))
  = tables demo_world.
Proof.
  apply (create_product_all_or_nothing demo_int4in
           (mkNewProduct None (Some "office") (Some 5) (Some "x.png"))
           demo_world).
  intros H. vm_compute in H. discriminate H.
Defined.

(** Product 7 is deleted. *)
Lemma delete_product_all_or_nothing_witness :
  exists n,
    demo_int4in "7" = Some n
    /\ (forall p, In p (products (tables (fst (manage_product demo_int4in
                                                 (ProductDELETE (Some "7"))
                                                 demo_world)))) <->
                  In p (products (tables demo_world)) /\ p_id p <> n)
    /\ ((forall p, In p (products (tables demo_world)) -> p_id p <> n) ->
        products (tables (fst (manage_product demo_int4in
                                 (ProductDELETE (Some "7")) demo_world)))
        = products (tables demo_world)).
Proof.
  apply (delete_product_all_or_nothing demo_int4in "7" demo_world).
  reflexivity.
Defined.

(** An update of an order when the store goes away. *)
Lemma update_order_all_or_nothing_witness :
  tables (fst (manage_orders
                 (OrdersPUT (mkOrderUpdate (Some "shipped") (Some 1)))
                 demo_world_failing))
  = tables demo_world_failing.
Proof.
  apply (update_order_all_or_nothing
           (mkOrderUpdate (Some "shipped") (Some 1)) demo_world_failing).
  intros H. vm_compute in H. discriminate H.
Defined.

Lemma demo_cart_unique_pairs : cart_unique_pairs (cart (tables demo_world)).
Proof.
  intros u p. unfold demo_world, demo_tables.
  cbn [cart tables filter]. unfold cart_key. cbn [c_user_id c_product_id].
  destruct (Z.eqb_spec 1 u), (Z.eqb_spec 2 u), (Z.eqb_spec 7 p),
    (Z.eqb_spec 99 p), (Z.eqb_spec 8 p); cbn [andb List.length]; lia.
Defined.

(** User 1 adds product 7 again. *)
Lemma add_to_cart_keeps_unique_pairs_witness :
  cart_unique_pairs
    (cart (tables (fst (add_to_cart (mkAddToCartReq (Some 1) (Some 7) (Some 3))
                          demo_world)))).
Proof.
  apply add_to_cart_keeps_unique_pairs. exact demo_cart_unique_pairs.
Defined.

(** User 2 adds product 7, for which there is no row. *)
Lemma add_to_cart_keeps_ids_fresh_witness :
  cart_ids_fresh
    (cart_id_seq (seqs (fst (add_to_cart (mkAddToCartReq (Some 2) (Some 7) None)
                               demo_world))))
    (cart (tables (fst (add_to_cart (mkAddToCartReq (Some 2) (Some 7) None)
                          demo_world)))).
Proof.
  apply add_to_cart_keeps_ids_fresh. split.
  - simpl. repeat constructor; simpl; intuition lia.
  - simpl. repeat constructor; simpl; lia.
Defined.

Lemma demo_email_unused :
  forall u, In u (users (tables demo_world)) -> u_email u <> "eve@example.org".
Proof.
  intros u Hin. simpl in Hin.
  destruct Hin as [Hu | [Hu | []]]; subst u; simpl; discriminate.
Defined.

(** Eve signs up and logs in. *)
Lemma signup_then_login_witness :
  snd (login demo_verify (mkLoginReq (Some "eve@example.org") (Some "pw"))
         (fst (signup demo_hash
                 (mkSignupReq (Some "Eve") (Some "eve@example.org") (Some "pw"))
                 demo_world)))
  = Ok (jsonify (JDict [("user_id", JNum 3); ("name", JStr "Eve");
                        ("message", JStr "Login successful")]) 200).
Proof.
  apply (signup_then_login demo_hash demo_verify
           (mkSignupReq (Some "Eve") (Some "eve@example.org") (Some "pw"))
           "Eve" "eve@example.org" "pw" demo_world);
    try reflexivity; [exact demo_world_healthy | exact demo_email_unused].
Defined.

(** Ann logs in. *)
Lemma login_success_witness :
  snd (login demo_verify (mkLoginReq (Some "ann@example.org") (Some "secret"))
         demo_world)
  = Ok (jsonify (JDict [("user_id", JNum 1); ("name", JStr "Ann");
                        ("message", JStr "Login successful")]) 200).
Proof.
  apply (login_success demo_verify
           (mkLoginReq (Some "ann@example.org") (Some "secret")) demo_world
           (mkUser 1 "Ann" "ann@example.org" "demo$$secret" false)
           demo_world_healthy eq_refl eq_refl eq_refl (fun w0 => eq_refl)).
Defined.

(** The products of the office category. *)
Lemma get_products_filter_witness :
  snd (get_products (Some "office") demo_world)
  = Ok (jsonify (JList [product_json (mkProduct 8 "Pen" "office" 120 "pen.png")])
                200).
Proof.
  apply (get_products_filter (Some "office") demo_world demo_world_healthy).
Defined.

(** The cart of a user_id that is no number. *)
Lemma get_cart_bad_user_id_witness :
  snd (get_cart demo_int4in (Some "abc") demo_world) = Raise invalid_integer.
Proof.
  apply (get_cart_bad_user_id demo_int4in "abc" demo_world demo_world_healthy
           eq_refl eq_refl).
Defined.

(** Adding to the cart when the COMMIT fails. *)
Lemma add_to_cart_storage_error_witness :
  snd (add_to_cart (mkAddToCartReq (Some 1) (Some 8) (Some 2))
         demo_world_failing_commit)
  = Ok (jsonify (error_body "Error adding to cart") 500).
Proof.
  apply (add_to_cart_storage_error
           (mkAddToCartReq (Some 1) (Some 8) (Some 2))
           demo_world_failing_commit 2
           (PyException "could not serialize access") []
           eq_refl eq_refl eq_refl (le_n 2) eq_refl).
Defined.

(** User 1 adds three more of product 7 and looks at the cart. *)
Lemma add_to_cart_then_get_cart_witness :
  exists rows c,
    snd (get_cart demo_int4in (Some "1")
           (fst (add_to_cart (mkAddToCartReq (Some 1) (Some 7) (Some 3))
                   demo_world)))
    = Ok (jsonify (JList (map cart_row_json rows)) 200)
    /\ In (c, mkProduct 7 "Mug" "kitchen" 450 "mug.png") rows
    /\ c_user_id c = 1 /\ c_product_id c = 7
    /\ c_quantity c = 2 + 3.
Proof.
  apply (add_to_cart_then_get_cart demo_int4in
           (mkAddToCartReq (Some 1) (Some 7) (Some 3)) 1 7 "1"
           (mkProduct 7 "Mug" "kitchen" 450 "mug.png") demo_world
           demo_world_healthy eq_refl eq_refl eq_refl eq_refl eq_refl eq_refl).
  - simpl. left. reflexivity.
  - reflexivity.
Defined.

(** A product is created and the statistics are read. *)
Lemma create_product_then_stats_witness :
  snd (admin_stats
         (fst (manage_product demo_int4in
                 (ProductPOST (mkNewProduct (Some "Cup") (Some "kitchen")
                                            (Some 300) (Some "cup.png")))
                 demo_world)))
  = Ok (jsonify (JDict [("revenue", JStr "1470"); ("orders", JNum 3);
                        ("products", JNum 3)]) 200).
Proof.
  apply (create_product_then_stats demo_int4in
           (mkNewProduct (Some "Cup") (Some "kitchen") (Some 300) (Some "cup.png"))
           "Cup" "kitchen" 300 "cup.png" demo_world demo_world_healthy
           eq_refl eq_refl eq_refl eq_refl).
Defined.

(** Product 7 is deleted and user 1 looks at the cart. *)
Lemma delete_product_then_get_cart_witness :
  cart (tables (fst (manage_product demo_int4in (ProductDELETE (Some "7"))
                       demo_world)))
  = cart (tables demo_world).
Proof.
  apply (delete_product_then_get_cart demo_int4in "7" "1" 7 1 demo_world
           demo_world_healthy eq_refl eq_refl eq_refl).
Defined.

(** An update of an order without the status. *)
Lemma update_order_missing_key_witness :
  snd (manage_orders (OrdersPUT (mkOrderUpdate None (Some 1))) demo_world)
  = Raise (PyException "'status'").
Proof.
  apply (update_order_missing_key (mkOrderUpdate None (Some 1)) demo_world
           demo_world_healthy).
  left. reflexivity.
Defined.

(** Order 1 is shipped and the orders are listed. *)
Lemma update_order_then_list_witness :
  exists rows,
    snd (manage_orders OrdersGET
           (fst (manage_orders
                   (OrdersPUT (mkOrderUpdate (Some "shipped") (Some 1)))
                   demo_world)))
    = Ok (jsonify (JList (map order_json rows)) 200)
    /\ (forall o u, In (o, u) rows -> o_id o = 1 -> o_status o = "shipped")
    /\ (forall o u, In (o, u) rows -> o_id o <> 1 ->
          In o (orders (tables demo_world))).
Proof.
  apply (update_order_then_list
           (mkOrderUpdate (Some "shipped") (Some 1)) "shipped" 1 demo_world
           demo_world_healthy eq_refl eq_refl).
Defined.

(** A product without its price. *)
Lemma create_product_missing_key_witness :
  snd (manage_product demo_int4in
         (ProductPOST (mkNewProduct (Some "Cup") (Some "kitchen") None
                                    (Some "cup.png")))
         demo_world)
  = Ok (jsonify (error_body "'price'") 500).
Proof.
  apply (create_product_missing_key demo_int4in
           (mkNewProduct (Some "Cup") (Some "kitchen") None (Some "cup.png"))
           demo_world demo_world_healthy).
  right. right. left. reflexivity.
Defined.

(** Eve signs up when the INSERT fails. *)
Lemma signup_storage_error_witness :
  snd (signup demo_hash
         (mkSignupReq (Some "Eve") (Some "eve@example.org") (Some "pw"))
         demo_world_failing_insert)
  = Ok (jsonify (error_body "Signup failed") 500)
  /\ stdout (fst (signup demo_hash
                    (mkSignupReq (Some "Eve") (Some "eve@example.org")
                                 (Some "pw"))
                    demo_world_failing_insert))
     = ["Error: disk full"]
  /\ tables (fst (signup demo_hash
                    (mkSignupReq (Some "Eve") (Some "eve@example.org")
                                 (Some "pw"))
                    demo_world_failing_insert))
     = tables demo_world_failing_insert
  /\ session (fst (signup demo_hash
                     (mkSignupReq (Some "Eve") (Some "eve@example.org")
                                  (Some "pw"))
                     demo_world_failing_insert))
     = None.
Proof.
  apply (signup_storage_error demo_hash
           (mkSignupReq (Some "Eve") (Some "eve@example.org") (Some "pw"))
           demo_world_failing_insert 0 "disk full" []
           eq_refl eq_refl eq_refl eq_refl);
    [ | exact (le_S 0 0 (le_n 0)) | reflexivity].
  intros u Hin. simpl in Hin.
  destruct Hin as [Hu | [Hu | []]]; subst u; simpl; discriminate.
Defined.

(** Ann, with her password, at both logins. *)
Lemma logins_agree_witness :
  (exists e,
     snd (login demo_verify
            (mkLoginReq (Some "ann@example.org") (Some "secret")) demo_world)
     = Raise e
     /\ snd (admin_login demo_verify
               (mkLoginReq (Some "ann@example.org") (Some "secret"))
               demo_world)
        = Raise e)
  \/ (exists r r',
        snd (login demo_verify
               (mkLoginReq (Some "ann@example.org") (Some "secret")) demo_world)
        = Ok r
        /\ snd (admin_login demo_verify
                  (mkLoginReq (Some "ann@example.org") (Some "secret"))
                  demo_world)
           = Ok r'
        /\ (status r = 200 <-> status r' = 200 \/ status r' = 403)
        /\ (status r = 401 <-> status r' = 401)).
Proof.
  apply (logins_agree demo_verify
           (mkLoginReq (Some "ann@example.org") (Some "secret")) demo_world
           demo_world_healthy eq_refl eq_refl).
Defined.
